(** * The Bollywood Night booking backend ([src/index.js])

    The repository is one Express application that exists in two revisions,
    both kept in [src/index.js]: the first (lines 1-244, called variant A
    below) and the second (lines 245-503, variant B).  Each handler is
    embedded as a function from the request, the values the handler draws
    from its environment (clock, random generator, fresh identifiers) and the
    database to a response and the database afterwards.

    The libraries the handlers call (Node's [crypto], [bcryptjs],
    [jsonwebtoken], the casts of Mongoose) are not part of the repository;
    they are the fields of the class [Platform], and every result below holds
    for every platform. *)

From Stdlib Require Import ZArith QArith Qround String Ascii List Lia.
From Stdlib Require Import Floats.PrimFloat.
From stdpp Require Import base option list strings gmap pretty.

Set Warnings "-register-all,-inexact-float".

Local Open Scope string_scope.

(** ** JavaScript values *)

(** The values a handler sees: what [JSON.parse] produces, and [undefined]
    for a property that is absent.  A [Number] is a binary64 float, an
    object is a finite map from property names to values. *)
Inductive value :=
| VUndef
| VNull
| VBool (b : bool)
| VNum (n : float)
| VStr (s : string)
| VArr (l : list value)
| VObj (o : gmap string value).

Module JS.

(** [ToBoolean]: what [!v] and [if (v)] test. *)
Definition truthy (v : value) : bool :=
  match v with
  | VUndef | VNull => false
  | VBool b => b
  | VNum n => negb (PrimFloat.eqb n 0 || PrimFloat.is_nan n)
  | VStr s => negb (String.eqb s "")
  | VArr _ | VObj _ => true
  end.

(** [o[k]] for an object held as a map: [undefined] when [k] is absent.
    This is also the destructuring [const { k } = o]. *)
Definition prop (o : gmap string value) (k : string) : value :=
  default VUndef (o !! k).

(** [v.k] for the property names the handlers read ([userId], [tickets],
    [name], ...): a [TypeError] ([None]) on [undefined] and [null], the
    property of an object, and [undefined] on every other value, none of
    which has a property of such a name. *)
Definition member (v : value) (k : string) : option value :=
  match v with
  | VUndef | VNull => None
  | VObj o => Some (prop o k)
  | _ => Some VUndef
  end.

(** [{ ...v }] for an object.  The own enumerable properties of an array
    or a string are its indices and a number or boolean has none; the only
    spread in the source is guarded by [formData.userId] being truthy, which
    holds of objects only (lemma [truthy_member_obj]). *)
Definition spread (v : value) : gmap string value :=
  match v with
  | VObj o => o
  | _ => ∅
  end.

(** [a === s] for a string [s]. *)
Definition strict_eq_string (s : string) (v : value) : bool :=
  match v with
  | VStr s' => String.eqb s s'
  | _ => false
  end.

Fixpoint join (sep : string) (l : list string) : string :=
  match l with
  | [] => ""
  | [s] => s
  | s :: l' => s +:+ sep +:+ join sep l'
  end.

(** [s.split(c)] for a one-character separator: the pieces between the
    occurrences of [c], at least one piece. *)
Fixpoint split (c : ascii) (s : string) : list string :=
  match s with
  | EmptyString => [""]
  | String a s' =>
      if Ascii.eqb a c then "" :: split c s'
      else match split c s' with
           | [] => [String a ""]
           | p :: ps => String a p :: ps
           end
  end.

(** [Math.floor] of a number held as a rational. *)
Definition Math_floor (q : Q) : Z := Qfloor q.

End JS.

(** ** The documents of the two collections *)

Definition ObjectId := string.
(** A [Date], in milliseconds since the epoch ([Date.now()]). *)
Definition Date := Z.

Inductive TicketType := STAG | COUPLE.
Inductive Status := PENDING | CONFIRMED | USED.

(** [ticketSchema] (lines 38-42, 292-296): all three paths required. *)
Module Ticket.
Record t := { type : TicketType; quantity : float; price : float }.
End Ticket.

(** [bookingSchema] (lines 44-60, 299-315).  Every path but [createdAt] is
    required, so a stored booking has them all; [createdAt] may be [null]. *)
Module Booking.
Record t := {
  _id : ObjectId;
  tickets : list Ticket.t;
  totalAmount : float;
  name : string;
  email : string;
  phone : string;
  userId : ObjectId;
  paymentId : string;
  bookingId : string;
  status : Status;
  createdAt : option Date;
}.
End Booking.

(** [userSchema].  Variant A (lines 30-35) requires the four paths, variant
    B (lines 283-288) requires none, so a path may be unset. *)
Module User.
Record t := {
  _id : ObjectId;
  name : option string;
  email : option string;
  phone : option string;
  password : option string;
}.
End User.

(** The database: the two collections, in insertion order. *)
Record DB := { users : list User.t; bookings : list Booking.t }.

(** The process environment ([process.env]). *)
Record Env := { RAZORPAY_KEY_SECRET : option string; JWT_SECRET : option string }.

Record Response := { res_status : nat; res_body : value }.

(** ** The platform *)

(** What the handlers call and the repository does not contain.  A cast
    that answers [None] raises a [CastError]; [jwt_verify] answers [None]
    when it throws (bad signature, expired, malformed). *)
Class Platform := {
  (** [crypto.createHmac("sha256", key).update(msg).digest("hex")] *)
  createHmac_sha256_hex : string → string → string;
  (** [bcrypt.hash(s, 10)] with the salt it draws, and [bcrypt.compare] *)
  bcrypt_hash : string → string → string;
  bcrypt_compare : string → string → bool;
  (** [jwt.sign(payload, secret, { expiresIn })] at a time, [jwt.verify] *)
  jwt_sign : value → string → string → Date → string;
  jwt_verify : string → string → Date → option value;
  (** [Number::toString] and [StringToNumber] of ECMAScript, and
      [Date.prototype.toISOString] *)
  Number_toString : float → string;
  StringToNumber : string → float;
  Date_toISOString : Date → string;
  (** Mongoose's casts: of a value that is not a string to a [String] path,
      not a number to a [Number] path, any value to an [ObjectId] or a
      [Date] path, and of a value that is not an array of objects to the
      [tickets] path *)
  castString_other : value → option string;
  castNumber_other : value → option float;
  castObjectId : value → option ObjectId;
  castDate : value → option Date;
  castTickets_other : value → option (list Ticket.t);
  (** Mongoose's queries with a filter [{ email: v }] or [{ userId: v }]
      whose [v] is not a string: the result, or [None] when the query
      throws *)
  findOne_email_other : value → list User.t → option (option User.t);
  find_userId_other : value → list Booking.t → option (list Booking.t);
}.

(** ** Coercions, casts and the two schemas *)

Section Schema.
Context `{!Platform}.

(** [ToString], as string concatenation applies it to an operand. *)
Fixpoint ToString (v : value) : string :=
  match v with
  | VUndef => "undefined"
  | VNull => "null"
  | VBool true => "true"
  | VBool false => "false"
  | VNum n => Number_toString n
  | VStr s => s
  | VArr l =>
      JS.join ","
        (map (λ x, match x with VUndef | VNull => "" | _ => ToString x end) l)
  | VObj _ => "[object Object]"
  end.

(** [ToNumber], as [*] applies it to an operand. *)
Definition ToNumber (v : value) : float :=
  match v with
  | VUndef => nan
  | VNull => 0%float
  | VBool true => 1%float
  | VBool false => 0%float
  | VNum n => n
  | VStr s => StringToNumber s
  | VArr _ => StringToNumber (ToString v)
  | VObj _ => nan
  end.

(** A string is stored as it is, a number as it is unless it is [NaN]. *)
Definition castString (v : value) : option string :=
  match v with
  | VStr s => Some s
  | _ => castString_other v
  end.

Definition castNumber (v : value) : option float :=
  match v with
  | VNum n => if PrimFloat.is_nan n then None else Some n
  | _ => castNumber_other v
  end.

(** A path with [required: true]: unset, [null] and, for a string, the
    empty string fail validation. *)
Definition required_String (v : value) : option string :=
  match v with
  | VUndef | VNull => None
  | _ => s ← castString v; if String.eqb s "" then None else Some s
  end.

Definition required_Number (v : value) : option float :=
  match v with
  | VUndef | VNull => None
  | _ => castNumber v
  end.

Definition required_ObjectId (v : value) : option ObjectId :=
  match v with
  | VUndef | VNull => None
  | _ => castObjectId v
  end.

(** A path without [required]: unset and [null] stay unset. *)
Definition optional_String (v : value) : option (option string) :=
  match v with
  | VUndef | VNull => Some None
  | _ => Some <$> castString v
  end.

Definition enum_TicketType (s : string) : option TicketType :=
  if String.eqb s "STAG" then Some STAG
  else if String.eqb s "COUPLE" then Some COUPLE
  else None.

Definition enum_Status (s : string) : option Status :=
  if String.eqb s "PENDING" then Some PENDING
  else if String.eqb s "CONFIRMED" then Some CONFIRMED
  else if String.eqb s "USED" then Some USED
  else None.

(** One element of [tickets], cast by [ticketSchema].  The [_id] Mongoose
    gives a subdocument is left out: no handler reads it. *)
Definition new_Ticket (o : gmap string value) : option Ticket.t :=
  ty ← required_String (JS.prop o "type") ≫= enum_TicketType;
  q ← required_Number (JS.prop o "quantity");
  p ← required_Number (JS.prop o "price");
  Some {| Ticket.type := ty; Ticket.quantity := q; Ticket.price := p |}.

Definition as_object (v : value) : option (gmap string value) :=
  match v with
  | VObj o => Some o
  | _ => None
  end.

(** [tickets: [ticketSchema]]: an unset array is empty. *)
Definition cast_tickets (v : value) : option (list Ticket.t) :=
  match v with
  | VUndef => Some []
  | VArr l =>
      match mapM as_object l with
      | Some os => mapM new_Ticket os
      | None => castTickets_other v
      end
  | _ => castTickets_other v
  end.

(** [status]: required, one of the enumeration, [default: "CONFIRMED"]
    when unset. *)
Definition path_status (v : value) : option Status :=
  match v with
  | VUndef => Some CONFIRMED
  | _ => required_String v ≫= enum_Status
  end.

(** [createdAt]: [default: Date.now] when unset, [null] is kept. *)
Definition path_createdAt (now : Date) (v : value) : option (option Date) :=
  match v with
  | VUndef => Some (Some now)
  | VNull => Some None
  | _ => Some <$> castDate v
  end.

(** [_id]: generated when unset. *)
Definition path_id (fresh : ObjectId) (v : value) : option ObjectId :=
  match v with
  | VUndef => Some fresh
  | _ => castObjectId v
  end.

(** [new Booking(obj)] followed by the validation [save()] runs first:
    the document, or [None] when a cast or a validator fails, in which case
    [save()] throws and nothing is written.  Properties of [obj] that are
    not paths of the schema are dropped. *)
Definition new_Booking (obj : gmap string value) (fresh : ObjectId) (now : Date)
  : option Booking.t :=
  id ← path_id fresh (JS.prop obj "_id");
  ts ← cast_tickets (JS.prop obj "tickets");
  total ← required_Number (JS.prop obj "totalAmount");
  nm ← required_String (JS.prop obj "name");
  em ← required_String (JS.prop obj "email");
  ph ← required_String (JS.prop obj "phone");
  uid ← required_ObjectId (JS.prop obj "userId");
  pid ← required_String (JS.prop obj "paymentId");
  bid ← required_String (JS.prop obj "bookingId");
  st ← path_status (JS.prop obj "status");
  at' ← path_createdAt now (JS.prop obj "createdAt");
  Some {| Booking._id := id; Booking.tickets := ts; Booking.totalAmount := total;
          Booking.name := nm; Booking.email := em; Booking.phone := ph;
          Booking.userId := uid; Booking.paymentId := pid;
          Booking.bookingId := bid; Booking.status := st;
          Booking.createdAt := at' |}.

(** [newBooking.save()]: the insert, refused on a duplicate [_id]. *)
Definition Booking_save (b : Booking.t) (db : DB) : option DB :=
  if existsb (λ b', String.eqb (Booking._id b') (Booking._id b)) (bookings db)
  then None
  else Some {| users := users db; bookings := bookings db ++ [b] |}.

(** [new User({ name, email, phone, password })] and its validation, for
    the schema of variant A (all required) and of variant B (none). *)
Definition new_User_A (nm em ph : value) (hashed : string) (fresh : ObjectId)
  : option User.t :=
  n ← required_String nm;
  e ← required_String em;
  p ← required_String ph;
  h ← required_String (VStr hashed);
  Some {| User._id := fresh; User.name := Some n; User.email := Some e;
          User.phone := Some p; User.password := Some h |}.

Definition new_User_B (nm em ph : value) (hashed : string) (fresh : ObjectId)
  : option User.t :=
  n ← optional_String nm;
  e ← optional_String em;
  p ← optional_String ph;
  Some {| User._id := fresh; User.name := n; User.email := e;
          User.phone := p; User.password := Some hashed |}.

Definition option_string_eqb (a b : option string) : bool :=
  match a, b with
  | Some x, Some y => String.eqb x y
  | None, None => true
  | _, _ => false
  end.

(** [user.save()]: the insert, refused on a duplicate [_id] and, by the
    [unique] index on [email], on an email another user has (an unset
    email is indexed as [null]). *)
Definition User_save (u : User.t) (db : DB) : option DB :=
  if existsb (λ u', String.eqb (User._id u') (User._id u)
                    || option_string_eqb (User.email u') (User.email u)) (users db)
  then None
  else Some {| users := users db ++ [u]; bookings := bookings db |}.

(** [User.findOne({ email })]: the first user with that email. *)
Definition User_findOne_email (v : value) (db : DB) : option (option User.t) :=
  match v with
  | VStr e => Some (find (λ u, option_string_eqb (User.email u) (Some e)) (users db))
  | _ => findOne_email_other v (users db)
  end.

(** [Booking.find({ userId })]: the bookings of that user, in the order of
    the collection; the filter is cast to an [ObjectId] first. *)
Definition Booking_find_userId (v : value) (db : DB) : option (list Booking.t) :=
  match v with
  | VStr _ =>
      uid ← castObjectId v;
      Some (filter (λ b, Booking.userId b = uid) (bookings db))
  | _ => find_userId_other v (bookings db)
  end.

(** [Booking.find({ email })] with the route parameter, a string, and
    [Booking.find()]. *)
Definition Booking_find_email (e : string) (db : DB) : list Booking.t :=
  filter (λ b, Booking.email b = e) (bookings db).

End Schema.

(** ** Responses and the JSON they carry *)

(** An object literal as [res.json] sends it: [JSON.stringify] leaves out
    the properties whose value is [undefined]. *)
Definition is_undefined (v : value) : bool :=
  match v with
  | VUndef => true
  | _ => false
  end.

Definition json_object (l : list (string * value)) : value :=
  VObj (list_to_map (List.filter (λ kv, negb (is_undefined kv.2)) l)).

(** [res.status(code).json({ message })] and [res.json(v)]. *)
Definition error (code : nat) (message : string) : Response :=
  {| res_status := code; res_body := json_object [("message", VStr message)] |}.

Definition json (v : value) : Response :=
  {| res_status := 200; res_body := v |}.

Definition of_option_string (o : option string) : value :=
  match o with
  | Some s => VStr s
  | None => VUndef
  end.

Definition TicketType_name (ty : TicketType) : string :=
  match ty with
  | STAG => "STAG"
  | COUPLE => "COUPLE"
  end.

Definition Status_name (st : Status) : string :=
  match st with
  | PENDING => "PENDING"
  | CONFIRMED => "CONFIRMED"
  | USED => "USED"
  end.

(** One element of the array [GET /api/bookings/my-passes] answers (lines
    196-207, 481-492). *)
Module Pass.
Record t := {
  _id : string;
  bookingId : string;
  ticketType : TicketType;
  quantity : float;
  totalAmount : float;
  name : string;
  email : string;
  phone : string;
  status : Status;
  createdAt : option Date;
}.
End Pass.

(** [booking.tickets.map((ticket) => ({ ... }))]: the passes of one booking. *)
Definition passes_of (booking : Booking.t) : list Pass.t :=
  map (λ ticket,
         {| Pass._id := Booking._id booking;
            Pass.bookingId := Booking.bookingId booking;
            Pass.ticketType := Ticket.type ticket;
            Pass.quantity := Ticket.quantity ticket;
            Pass.totalAmount := PrimFloat.mul (Ticket.price ticket) (Ticket.quantity ticket);
            Pass.name := Booking.name booking;
            Pass.email := Booking.email booking;
            Pass.phone := Booking.phone booking;
            Pass.status := Booking.status booking;
            Pass.createdAt := Booking.createdAt booking |})
      (Booking.tickets booking).

(** [bookings.map(...).flat()] of variant A and [bookings.flatMap(...)] of
    variant B. *)
Definition passes_A (bookings : list Booking.t) : list Pass.t :=
  concat (map passes_of bookings).

Definition passes_B (bookings : list Booking.t) : list Pass.t :=
  flat_map passes_of bookings.

Section ToJSON.
Context `{!Platform}.

Definition Date_toJSON (d : option Date) : value :=
  match d with
  | Some ms => VStr (Date_toISOString ms)
  | None => VNull
  end.

Definition Ticket_toJSON (t : Ticket.t) : value :=
  json_object [("type", VStr (TicketType_name (Ticket.type t)));
               ("quantity", VNum (Ticket.quantity t));
               ("price", VNum (Ticket.price t))].

Definition Booking_toJSON (b : Booking.t) : value :=
  json_object [("_id", VStr (Booking._id b));
               ("tickets", VArr (Ticket_toJSON <$> Booking.tickets b));
               ("totalAmount", VNum (Booking.totalAmount b));
               ("name", VStr (Booking.name b));
               ("email", VStr (Booking.email b));
               ("phone", VStr (Booking.phone b));
               ("userId", VStr (Booking.userId b));
               ("paymentId", VStr (Booking.paymentId b));
               ("bookingId", VStr (Booking.bookingId b));
               ("status", VStr (Status_name (Booking.status b)));
               ("createdAt", Date_toJSON (Booking.createdAt b));
               ("__v", VNum 0)].

(** A user document as [res.json] serialises it: every path that is set,
    the [password] path included. *)
Definition User_toJSON (u : User.t) : value :=
  json_object [("_id", VStr (User._id u));
               ("name", of_option_string (User.name u));
               ("email", of_option_string (User.email u));
               ("phone", of_option_string (User.phone u));
               ("password", of_option_string (User.password u));
               ("__v", VNum 0)].

Definition Pass_toJSON (p : Pass.t) : value :=
  json_object [("_id", VStr (Pass._id p));
               ("bookingId", VStr (Pass.bookingId p));
               ("ticketType", VStr (TicketType_name (Pass.ticketType p)));
               ("quantity", VNum (Pass.quantity p));
               ("totalAmount", VNum (Pass.totalAmount p));
               ("name", VStr (Pass.name p));
               ("email", VStr (Pass.email p));
               ("phone", VStr (Pass.phone p));
               ("status", VStr (Status_name (Pass.status p)));
               ("createdAt", Date_toJSON (Pass.createdAt p))].

End ToJSON.

(** ** The payment gateway *)

(** The argument of [razorpay.orders.create] (lines 66-71, 329-334) and the
    order it answers, of which the handler reads three properties. *)
Module Options.
Record t := { amount : float; currency : string; receipt : string;
              payment_capture : Z }.
End Options.

Module Order.
Record t := { id : value; amount : value; currency : value }.
End Order.

(** The gateway: the order it creates, or [None] when the call fails. *)
Definition Gateway := Options.t → option Order.t.

(** ** What the two variants share *)

Section Common.
Context `{!Platform}.

(** The [options] of [POST /api/create-order] (lines 65-71, 327-334). *)
Definition order_options (body : gmap string value) (now : Date) : Options.t :=
  let amount := JS.prop body "amount" in
  {| Options.amount := PrimFloat.mul (ToNumber amount) 100;
     Options.currency := "INR";
     Options.receipt := "receipt_" +:+ pretty now;
     Options.payment_capture := 1 |}.

(** [POST /api/create-order] (lines 63-78, 325-343). *)
Definition create_order (razorpay : Gateway) (body : gmap string value) (now : Date)
  : Response :=
  match razorpay (order_options body now) with
  | Some order =>
      json (json_object [("id", Order.id order);
                         ("amount", Order.amount order);
                         ("currency", Order.currency order)])
  | None => error 500 "Error creating order"
  end.

(** [GET /api/bookings/user/:email] (lines 120-129, 452-461) and [GET /api/bookings]
    (lines 131-139, 464-472). *)
Definition bookings_of_email (email : string) (db : DB) : Response :=
  json (VArr (Booking_toJSON <$> Booking_find_email email db)).

Definition all_bookings (db : DB) : Response :=
  json (VArr (Booking_toJSON <$> bookings db)).

(** [!authHeader || !authHeader.startsWith("Bearer ")] (lines 165, 392). *)
Definition no_bearer (authHeader : option string) : bool :=
  match authHeader with
  | None => true
  | Some h => String.eqb h "" || negb (String.prefix "Bearer " h)
  end.

(** [authHeader.split(" ")[1]] (lines 172, 398): [undefined] when the
    header has no second piece. *)
Definition bearer_token (authHeader : option string) : option string :=
  match authHeader with
  | Some h => JS.split " " h !! 1%nat
  | None => None
  end.

(** [generated_signature] (lines 95-98, 419-422): the digest of
    [razorpay_order_id + "|" + razorpay_payment_id] under the key
    [process.env.RAZORPAY_KEY_SECRET]; [createHmac] throws a [TypeError]
    ([None]) when the key is not set. *)
Definition generated_signature (env : Env) (body : gmap string value)
  : option string :=
  let razorpay_payment_id := JS.prop body "razorpay_payment_id" in
  let razorpay_order_id := JS.prop body "razorpay_order_id" in
  match RAZORPAY_KEY_SECRET env with
  | Some key =>
      Some (createHmac_sha256_hex key
              (ToString razorpay_order_id +:+ "|" +:+ ToString razorpay_payment_id))
  | None => None
  end.

(** [generated_signature !== razorpay_signature] (lines 100, 424). *)
Definition signature_mismatch (generated : string) (body : gmap string value)
  : bool :=
  negb (JS.strict_eq_string generated (JS.prop body "razorpay_signature")).

(** ["BN" + Math.floor(Math.random() * 10000)] (lines 104, 429), for the
    value [random] of [Math.random()].  The product and the floor are taken
    over the rationals; the string of a whole number is its decimal
    digits. *)
Definition new_bookingId (random : Q) : string :=
  "BN" +:+ pretty (JS.Math_floor (random * inject_Z 10000)).

End Common.

(** ** Variant A (lines 1-244) *)

Module VariantA.
Section Handlers.
Context `{!Platform} (env : Env).

(** [process.env.JWT_SECRET || "your_jwt_secret"] (line 15). *)
Definition JWT_SECRET_or_default : string :=
  match JWT_SECRET env with
  | Some s => if String.eqb s "" then "your_jwt_secret" else s
  | None => "your_jwt_secret"
  end.

(** [!formData || !formData.userId] (line 91): the right operand is
    evaluated only when [formData] is truthy. *)
Definition no_user_id (formData : value) : option bool :=
  if JS.truthy formData
  then userId ← JS.member formData "userId"; Some (negb (JS.truthy userId))
  else Some true.

(** [POST /api/verify-payment] (lines 80-118); [booking_object] is the
    object literal [{ ...formData, paymentId: razorpay_payment_id, bookingId }]
    of lines 106-110, where a later property replaces an earlier one of the
    same name.  [random] is the value of
    [Math.random()], a number in [0, 1), held as a rational; [fresh] the
    [_id] Mongoose generates; [now] the value of [Date.now()].  [thrown]
    is what the [catch] answers when the [try] block throws: a [TypeError] of
    [createHmac] on a key that is not set, a validation error of [save()]. *)
Definition booking_object (body : gmap string value) (bookingId : string)
  : gmap string value :=
  let razorpay_payment_id := JS.prop body "razorpay_payment_id" in
  let formData := JS.prop body "formData" in
  <["bookingId" := VStr bookingId]>
    (<["paymentId" := razorpay_payment_id]> (JS.spread formData)).

Definition verify_payment (body : gmap string value) (random : Q)
    (fresh : ObjectId) (now : Date) (db : DB) : Response * DB :=
  let formData := JS.prop body "formData" in
  let thrown := (error 500 "Error verifying payment", db) in
  match no_user_id formData with
  | None => thrown
  | Some true => (error 400 "User ID is required", db)
  | Some false =>
      match generated_signature env body with
      | None => thrown
      | Some generated =>
          if signature_mismatch generated body
          then (error 400 "Invalid payment signature", db)
          else
            let bookingId := new_bookingId random in
            match new_Booking (booking_object body bookingId) fresh now with
            | None => thrown
            | Some newBooking =>
                match Booking_save newBooking db with
                | None => thrown
                | Some db' =>
                    (json (json_object [("success", VBool true);
                                        ("booking", Booking_toJSON newBooking)]),
                     db')
                end
            end
      end
  end.

(** [POST /api/register] (lines 141-160).  [salt] is the salt
    [bcrypt.hash(password, 10)] draws; [bcryptjs] rejects an argument that is
    not a string. *)
Definition register (body : gmap string value) (salt : string)
    (fresh : ObjectId) (now : Date) (db : DB) : Response * DB :=
  let name := JS.prop body "name" in
  let email := JS.prop body "email" in
  let phone := JS.prop body "phone" in
  let password := JS.prop body "password" in
  match User_findOne_email email db with
  | None => (error 500 "Server error", db)
  | Some (Some _) => (error 400 "Email already in use", db)
  | Some None =>
      match password with
      | VStr pw =>
          let hashedPassword := bcrypt_hash pw salt in
          match new_User_A name email phone hashedPassword fresh with
          | None => (error 500 "Server error", db)
          | Some user =>
              match User_save user db with
              | None => (error 500 "Server error", db)
              | Some db' =>
                  let token :=
                    jwt_sign (json_object [("userId", VStr (User._id user))])
                      JWT_SECRET_or_default "7d" now in
                  (json (json_object
                           [("token", VStr token);
                            ("user", json_object [("userId", VStr (User._id user));
                                                  ("name", name);
                                                  ("email", email);
                                                  ("phone", phone)])]),
                   db')
              end
          end
      | _ => (error 500 "Server error", db)
      end
  end.

(** [jwt.verify(token, JWT_SECRET)] (line 177), which throws on a token
    that is [undefined]. *)
Definition verify_token (token : option string) (now : Date) : option value :=
  match token with
  | Some t => jwt_verify t JWT_SECRET_or_default now
  | None => None
  end.

(** [Booking.find({ userId })] with [userId = decoded.userId] (lines 183,
    188). *)
Definition bookings_of_decoded (decoded : value) (db : DB)
  : option (list Booking.t) :=
  match JS.member decoded "userId" with
  | Some userId => Booking_find_userId userId db
  | None => None
  end.

(** [GET /api/bookings/my-passes] (lines 161-218): the guard, the inner
    [try] around [jwt.verify], the query and the expansion. *)
Definition my_passes (authHeader : option string) (now : Date) (db : DB)
  : Response :=
  if no_bearer authHeader
  then error 401 "No token, authorization denied"
  else
    match verify_token (bearer_token authHeader) now with
    | None => error 401 "Token is not valid"
    | Some decoded =>
        match bookings_of_decoded decoded db with
        | None => error 500 "Error fetching passes"
        | Some bookings => json (VArr (map Pass_toJSON (passes_A bookings)))
        end
    end.

(** [POST /api/login] (lines 219-242). *)
Definition login (body : gmap string value) (now : Date) (db : DB) : Response :=
  let email := JS.prop body "email" in
  let password := JS.prop body "password" in
  match User_findOne_email email db with
  | None => error 500 "Server error"
  | Some None => error 400 "Invalid email or password"
  | Some (Some user) =>
      match password, User.password user with
      | VStr pw, Some hash =>
          if negb (bcrypt_compare pw hash)
          then error 400 "Invalid email or password"
          else
            let token :=
              jwt_sign (json_object [("userId", VStr (User._id user))])
                JWT_SECRET_or_default "7d" now in
            json (json_object
                    [("token", VStr token);
                     ("user", json_object [("id", VStr (User._id user));
                                           ("name", of_option_string (User.name user));
                                           ("email", email);
                                           ("phone", of_option_string (User.phone user))])])
      | _, _ => error 500 "Server error"
      end
  end.

(** The routes of variant A, each with what the handler draws from its
    environment, and the application as a transition on the database. *)
Inductive request :=
| CreateOrder (body : gmap string value) (now : Date)
| VerifyPayment (body : gmap string value) (random : Q) (fresh : ObjectId) (now : Date)
| BookingsOfEmail (email : string)
| AllBookings
| Register (body : gmap string value) (salt : string) (fresh : ObjectId) (now : Date)
| MyPasses (authHeader : option string) (now : Date)
| Login (body : gmap string value) (now : Date).

Definition handle (razorpay : Gateway) (q : request) (db : DB) : Response * DB :=
  match q with
  | CreateOrder body now => (create_order razorpay body now, db)
  | VerifyPayment body random fresh now => verify_payment body random fresh now db
  | BookingsOfEmail email => (bookings_of_email email db, db)
  | AllBookings => (all_bookings db, db)
  | Register body salt fresh now => register body salt fresh now db
  | MyPasses authHeader now => (my_passes authHeader now db, db)
  | Login body now => (login body now db, db)
  end.

Definition run (razorpay : Gateway) (qs : list request) (db : DB) : DB :=
  fold_left (λ d q, (handle razorpay q d).2) qs db.

End Handlers.
End VariantA.

(** ** Variant B (lines 245-503) *)

Module VariantB.
Section Handlers.
Context `{!Platform} (env : Env).

(** [jwt.sign(payload, JWT_SECRET, { expiresIn: "1h" })] with
    [JWT_SECRET = process.env.JWT_SECRET] (line 261): [jsonwebtoken] throws
    when the secret is not set or empty. *)
Definition sign (payload : value) (now : Date) : option string :=
  match JWT_SECRET env with
  | Some secret =>
      if String.eqb secret "" then None else Some (jwt_sign payload secret "1h" now)
  | None => None
  end.

(** [jwt.verify(token, JWT_SECRET)] (line 399). *)
Definition verify_token (token : option string) (now : Date) : option value :=
  match token, JWT_SECRET env with
  | Some t, Some secret =>
      if String.eqb secret "" then None else jwt_verify t secret now
  | _, _ => None
  end.

(** [POST /register] (lines 346-365). *)
Definition register (body : gmap string value) (salt : string)
    (fresh : ObjectId) (now : Date) (db : DB) : Response * DB :=
  let name := JS.prop body "name" in
  let email := JS.prop body "email" in
  let phone := JS.prop body "phone" in
  let password := JS.prop body "password" in
  match User_findOne_email email db with
  | None => (error 500 "Server error", db)
  | Some (Some _) => (error 400 "User already exists", db)
  | Some None =>
      match password with
      | VStr pw =>
          let hashedPassword := bcrypt_hash pw salt in
          match new_User_B name email phone hashedPassword fresh with
          | None => (error 500 "Server error", db)
          | Some user =>
              match User_save user db with
              | None => (error 500 "Server error", db)
              | Some db' =>
                  match sign (json_object [("id", VStr (User._id user))]) now with
                  | None => (error 500 "Server error", db')
                  | Some token =>
                      ({| res_status := 201;
                          res_body := json_object [("token", VStr token);
                                                   ("user", User_toJSON user)] |},
                       db')
                  end
              end
          end
      | _ => (error 500 "Server error", db)
      end
  end.

(** [POST /login] (lines 368-386). *)
Definition login (body : gmap string value) (now : Date) (db : DB) : Response :=
  let email := JS.prop body "email" in
  let password := JS.prop body "password" in
  match User_findOne_email email db with
  | None => error 500 "Server error"
  | Some None => error 400 "Invalid credentials"
  | Some (Some user) =>
      match password, User.password user with
      | VStr pw, Some hash =>
          if negb (bcrypt_compare pw hash)
          then error 400 "Invalid credentials"
          else
            match sign (json_object [("id", VStr (User._id user))]) now with
            | None => error 500 "Server error"
            | Some token =>
                json (json_object [("token", VStr token);
                                   ("user", User_toJSON user)])
            end
      | _, _ => error 500 "Server error"
      end
  end.

(** The middleware [auth] (lines 389-406): the response it sends, or the
    [id] it stores in [req.user] before it calls [next()]. *)
Definition auth (authHeader : option string) (now : Date) : Response + value :=
  if no_bearer authHeader
  then inl (error 401 "No token, authorization denied")
  else
    match verify_token (bearer_token authHeader) now with
    | None => inl (error 401 "Invalid token")
    | Some decoded =>
        match JS.member decoded "id" with
        | None => inl (error 401 "Invalid token")
        | Some id => inr id
        end
    end.

(** The object [new Booking] is given (lines 432-441); reading a property
    of a [formData] that is [undefined] or [null] throws. *)
Definition booking_object (body : gmap string value) (bookingId : string)
  : option (gmap string value) :=
  let razorpay_payment_id := JS.prop body "razorpay_payment_id" in
  let formData := JS.prop body "formData" in
  tickets ← JS.member formData "tickets";
  totalAmount ← JS.member formData "totalAmount";
  name ← JS.member formData "name";
  email ← JS.member formData "email";
  phone ← JS.member formData "phone";
  userId ← JS.member formData "userId";
  Some (list_to_map [("tickets", tickets); ("totalAmount", totalAmount);
                     ("name", name); ("email", email); ("phone", phone);
                     ("userId", userId); ("paymentId", razorpay_payment_id);
                     ("bookingId", VStr bookingId)]).

(** [POST /api/verify-payment] (lines 409-449), with [random], [fresh] and
    [now] as in variant A. *)
Definition verify_payment (body : gmap string value) (random : Q)
    (fresh : ObjectId) (now : Date) (db : DB) : Response * DB :=
  let thrown := (error 500 "Error verifying payment", db) in
  match generated_signature env body with
  | None => thrown
  | Some generated =>
      if signature_mismatch generated body
      then (error 400 "Invalid payment signature", db)
      else
        let bookingId := new_bookingId random in
        match booking_object body bookingId with
        | None => thrown
        | Some obj =>
            match new_Booking obj fresh now with
            | None => thrown
            | Some newBooking =>
                match Booking_save newBooking db with
                | None => thrown
                | Some db' =>
                    (json (json_object [("success", VBool true);
                                        ("booking", Booking_toJSON newBooking)]),
                     db')
                end
            end
        end
  end.

(** [GET /api/bookings/my-passes] behind [auth] (lines 475-500). *)
Definition my_passes (authHeader : option string) (now : Date) (db : DB)
  : Response :=
  match auth authHeader now with
  | inl refused => refused
  | inr userId =>
      match Booking_find_userId userId db with
      | None => error 500 "Error fetching passes"
      | Some bookings => json (VArr (map Pass_toJSON (passes_B bookings)))
      end
  end.

(** The routes of variant B ([GET /test] of lines 320-322 included) and
    the application as a transition on the database. *)
Inductive request :=
| Test
| CreateOrder (body : gmap string value) (now : Date)
| Register (body : gmap string value) (salt : string) (fresh : ObjectId) (now : Date)
| Login (body : gmap string value) (now : Date)
| VerifyPayment (body : gmap string value) (random : Q) (fresh : ObjectId) (now : Date)
| BookingsOfEmail (email : string)
| AllBookings
| MyPasses (authHeader : option string) (now : Date).

Definition handle (razorpay : Gateway) (q : request) (db : DB) : Response * DB :=
  match q with
  | Test => ({| res_status := 200; res_body := VStr "Hello World!" |}, db)
  | CreateOrder body now => (create_order razorpay body now, db)
  | Register body salt fresh now => register body salt fresh now db
  | Login body now => (login body now db, db)
  | VerifyPayment body random fresh now => verify_payment body random fresh now db
  | BookingsOfEmail email => (bookings_of_email email db, db)
  | AllBookings => (all_bookings db, db)
  | MyPasses authHeader now => (my_passes authHeader now db, db)
  end.

Definition run (razorpay : Gateway) (qs : list request) (db : DB) : DB :=
  fold_left (λ d q, (handle razorpay q d).2) qs db.

End Handlers.
End VariantB.

(** ** A platform to run the handlers on

    [demo] stands in for the libraries so that the handlers evaluate on
    concrete requests: its digest and its token are plain concatenations
    and its casts accept only a value of the path's own type.  It has no
    cryptographic content; the theorems hold for every platform, and [demo]
    shows that their hypotheses can be met. *)

Definition demo_payload_id (payload : value) : string :=
  match payload with
  | VObj o =>
      match o !! "userId", o !! "id" with
      | Some (VStr s), _ => s
      | _, Some (VStr s) => s
      | _, _ => ""
      end
  | _ => ""
  end.

Definition demo_jwt_verify (token secret : string) (now : Date) : option value :=
  if String.prefix (secret +:+ ".") token
  then
    let id := String.substring (String.length secret + 1) (String.length token) token in
    Some (VObj (<["userId" := VStr id]> (<["id" := VStr id]> ∅)))
  else None.

(** An [ObjectId] is written as 24 hexadecimal digits. *)
Definition is_hex_digit (a : ascii) : bool :=
  let n := nat_of_ascii a in
  ((48 <=? n)%nat && (n <=? 57)%nat) || ((97 <=? n)%nat && (n <=? 102)%nat).

Definition demo_castObjectId (v : value) : option ObjectId :=
  match v with
  | VStr s =>
      if (String.length s =? 24)%nat && forallb is_hex_digit (list_ascii_of_string s)
      then Some s
      else None
  | _ => None
  end.

Definition demo : Platform := {|
  createHmac_sha256_hex key msg := "hmac:" +:+ key +:+ ":" +:+ msg;
  bcrypt_hash pw salt := "$2a$10$" +:+ salt +:+ "$" +:+ pw;
  bcrypt_compare pw hash :=
    String.eqb (String.substring (String.length hash - String.length pw)
                  (String.length pw) hash) pw;
  jwt_sign payload secret expiresIn now := secret +:+ "." +:+ demo_payload_id payload;
  jwt_verify := demo_jwt_verify;
  Number_toString n := "0";
  StringToNumber s := nan;
  Date_toISOString ms := pretty ms;
  castString_other v := None;
  castNumber_other v := None;
  castObjectId := demo_castObjectId;
  castDate v := None;
  castTickets_other v := None;
  findOne_email_other v us := Some None;
  find_userId_other v bs := Some [];
|}.

Definition demo_env : Env :=
  {| RAZORPAY_KEY_SECRET := Some "rzp_secret"; JWT_SECRET := Some "jwt_secret" |}.

Definition empty_db : DB := {| users := []; bookings := [] |}.

(** The identifiers of a user, of another user and of a booking, and two
    Authorization headers: the token [demo] signs for the user, and one signed
    with another secret. *)
Definition asha_id : ObjectId := "65a1f0c2b3d4e5f6a7b8c9d0".
Definition other_id : ObjectId := "65a1f0c2b3d4e5f6a7b8c9d2".
Definition booking_1 : ObjectId := "65a1f0c2b3d4e5f6a7b8c9d1".
Definition asha_bearer : string := "Bearer jwt_secret." +:+ asha_id.
Definition forged_bearer : string := "Bearer other." +:+ asha_id.

(** A booking form as the client sends it: two STAG tickets at 500 and one
    COUPLE ticket at 900, for the user [asha_id]. *)
Definition form_tickets : value :=
  VArr [VObj (list_to_map [("type", VStr "STAG"); ("quantity", VNum 2);
                           ("price", VNum 500)]);
        VObj (list_to_map [("type", VStr "COUPLE"); ("quantity", VNum 1);
                           ("price", VNum 900)])].

Definition form (totalAmount : float) (extra : list (string * value))
  : gmap string value :=
  list_to_map (extra ++
               [("tickets", form_tickets); ("totalAmount", VNum totalAmount);
                ("name", VStr "Asha"); ("email", VStr "asha@example.com");
                ("phone", VStr "9876543210"); ("userId", VStr asha_id)]).

(** A verify-payment request for the order [order_1] and the payment
    [pay_1], with the signature [demo] computes for them. *)
Definition signed_request (formData : value) : gmap string value :=
  list_to_map [("razorpay_payment_id", VStr "pay_1");
               ("razorpay_order_id", VStr "order_1");
               ("razorpay_signature", VStr "hmac:rzp_secret:order_1|pay_1");
               ("formData", formData)].

Definition forged_request (formData : value) : gmap string value :=
  <["razorpay_signature" := VStr "forged"]> (signed_request formData).

(** The booking the signed request with [form 1900 extra] becomes, with the
    identifier [BN5000] drawn for [Math.random() = 1/2]. *)
Definition demo_tickets : list Ticket.t :=
  [{| Ticket.type := STAG; Ticket.quantity := 2; Ticket.price := 500 |};
   {| Ticket.type := COUPLE; Ticket.quantity := 1; Ticket.price := 900 |}].

Definition demo_booking (totalAmount : float) (status : Status) : Booking.t :=
  {| Booking._id := booking_1; Booking.tickets := demo_tickets;
     Booking.totalAmount := totalAmount;
     Booking.name := "Asha"; Booking.email := "asha@example.com";
     Booking.phone := "9876543210"; Booking.userId := asha_id;
     Booking.paymentId := "pay_1"; Booking.bookingId := "BN5000";
     Booking.status := status; Booking.createdAt := Some 1000%Z |}.


(** A form that also names the paths the server sets, and a status. *)
Definition meddling_form : gmap string value :=
  form 1900 [("status", VStr "PENDING"); ("paymentId", VStr "pay_0");
             ("bookingId", VStr "BN0")].

(** A gateway that accepts every order and echoes its amount. *)
Definition demo_gateway : Gateway :=
  λ options,
    Some {| Order.id := VStr "order_1";
            Order.amount := VNum (Options.amount options);
            Order.currency := VStr (Options.currency options) |}.

(** A registration and the database that holds Asha's bookings. *)
Definition demo_registration : gmap string value :=
  list_to_map [("name", VStr "Asha"); ("email", VStr "asha@example.com");
               ("phone", VStr "9876543210"); ("password", VStr "hunter2")].

Definition demo_user : User.t :=
  {| User._id := asha_id; User.name := Some "Asha";
     User.email := Some "asha@example.com"; User.phone := Some "9876543210";
     User.password := Some "$2a$10$salt$hunter2" |}.

Definition demo_db (totalAmount : float) : DB :=
  {| users := [demo_user]; bookings := [demo_booking totalAmount CONFIRMED] |}.

(** A login request. *)
Definition login_request (email password : string) : gmap string value :=
  list_to_map [("email", VStr email); ("password", VStr password)].

(** ** The vocabulary of the properties *)

Section Vocabulary.
Context `{!Platform}.


(** The same as the handlers test it. *)
Definition signature_valid (env : Env) (body : gmap string value) : bool :=
  match generated_signature env body with
  | Some generated => negb (signature_mismatch generated body)
  | None => false
  end.

(** [res.json({ success: true, booking: newBooking })] (lines 113, 444). *)
Definition success_body (b : Booking.t) : Response :=
  json (json_object [("success", VBool true); ("booking", Booking_toJSON b)]).

End Vocabulary.

(** [db'] is [db] with the booking [b] inserted, and nothing else changed. *)
Definition inserted (b : Booking.t) (db db' : DB) : Prop :=
  db' = {| users := users db; bookings := bookings db ++ [b] |}.

(** [db'] is [db] with the user [u] inserted. *)
Definition registered (u : User.t) (db db' : DB) : Prop :=
  db' = {| users := users db ++ [u]; bookings := bookings db |}.

(** Every stored booking has the status [CONFIRMED]. *)
Definition all_confirmed (db : DB) : Prop :=
  Forall (λ b, Booking.status b = CONFIRMED) (bookings db).

(** The sum of a list of numbers, added from the left as a loop would. *)
Definition sum_numbers (l : list float) : float :=
  fold_left PrimFloat.add l 0%float.


(** The header is [Bearer <token>] for some text [<token>]. *)
Definition bearer_form (authHeader : option string) : Prop :=
  ∃ rest, authHeader = Some ("Bearer " +:+ rest).

(** The response carries an array (of bookings or passes). *)
Definition carries_array (r : Response) : Prop :=
  ∃ l, res_body r = VArr l.

(** The property [k] of an object, when it has one. *)
Definition field (v : value) (k : string) : option value :=
  match v with
  | VObj o => o !! k
  | _ => None
  end.

(** The [user] object a register or login response carries. *)
Definition user_of_response (r : Response) : value :=
  default VUndef (field (res_body r) "user").


(** ** Vocabulary for the store and the requests *)

(** [db'] holds the documents of [db], in the same order, and possibly more
    after them. *)
Definition grows (db db' : DB) : Prop :=
  users db `prefix_of` users db' ∧ bookings db `prefix_of` bookings db'.

(** No two bookings share an [_id], no two users an [_id] or an email. *)
Definition unique_keys (db : DB) : Prop :=
  NoDup (Booking._id <$> bookings db) ∧
  NoDup (User._id <$> users db) ∧
  NoDup (User.email <$> users db).

(** The four paths of the user are set, none to the empty string. *)
Definition complete_user (u : User.t) : Prop :=
  ∃ n e p h,
    User.name u = Some n ∧ User.email u = Some e ∧ User.phone u = Some p ∧
    User.password u = Some h ∧ n ≠ "" ∧ e ≠ "" ∧ p ≠ "" ∧ h ≠ "".

(** The text has no space. *)
Fixpoint no_space (s : string) : bool :=
  match s with
  | EmptyString => true
  | String a s' => negb (Ascii.eqb a " ") && no_space s'
  end.

(** [formData.k] as variant B reads it, [undefined] when it throws. *)
Definition form_field (body : gmap string value) (k : string) : value :=
  default VUndef (JS.member (JS.prop body "formData") k).

(** The registration of another user. *)
Definition ravi_registration : gmap string value :=
  list_to_map [("name", VStr "Ravi"); ("email", VStr "ravi@example.com");
               ("phone", VStr "9123456780"); ("password", VStr "s3cret")].

(** A process environment without [JWT_SECRET]. *)
Definition demo_env_no_jwt : Env :=
  {| RAZORPAY_KEY_SECRET := Some "rzp_secret"; JWT_SECRET := None |}.

(** The booking form without its tickets. *)
Definition form_without_tickets : gmap string value :=
  delete "tickets" (form 1900 []).

Definition demo_booking_without_tickets : Booking.t :=
  {| Booking._id := booking_1; Booking.tickets := [];
     Booking.totalAmount := 1900;
     Booking.name := "Asha"; Booking.email := "asha@example.com";
     Booking.phone := "9876543210"; Booking.userId := asha_id;
     Booking.paymentId := "pay_1"; Booking.bookingId := "BN5000";
     Booking.status := CONFIRMED; Booking.createdAt := Some 1000%Z |}.


(** What [demo] decodes the token of [asha_bearer] to. *)
Definition asha_decoded : value :=
  VObj (<["userId" := VStr asha_id]> (<["id" := VStr asha_id]> ∅)).

(** The store with Asha registered and no booking yet. *)
Definition demo_db_registered : DB := {| users := [demo_user]; bookings := [] |}.

(** A second booking of the same payment, made a second later. *)
Definition booking_2 : ObjectId := "65a1f0c2b3d4e5f6a7b8c9d3".

Definition demo_replayed_booking : Booking.t :=
  {| Booking._id := booking_2; Booking.tickets := demo_tickets;
     Booking.totalAmount := 1900;
     Booking.name := "Asha"; Booking.email := "asha@example.com";
     Booking.phone := "9876543210"; Booking.userId := asha_id;
     Booking.paymentId := "pay_1"; Booking.bookingId := "BN2500";
     Booking.status := CONFIRMED; Booking.createdAt := Some 2000%Z |}.

(** ** Facts about the JavaScript and schema layer *)

Section Facts.
Context `{!Platform}.




(** Only an object has a truthy property: the guard of line 91 lets
    through objects only, so the spread of line 107 is of an object. *)
Lemma truthy_member_obj (v u : value) (k : string) :
  JS.member v k = Some u → JS.truthy u = true → ∃ o, v = VObj o ∧ JS.prop o k = u.
Proof.
  destruct v; simpl; intros Hm Ht; try discriminate;
    try (injection Hm as <-; discriminate).
  injection Hm as <-. eauto.
Qed.

Lemma no_user_id_false (formData : value) :
  VariantA.no_user_id formData = Some false ↔
  ∃ o, formData = VObj o ∧ JS.truthy (JS.prop o "userId") = true.
Proof.
  unfold VariantA.no_user_id. split.
  - destruct (JS.truthy formData) eqn:Hf; [|discriminate].
    destruct (JS.member formData "userId") as [u|] eqn:Hm; simpl; [|discriminate].
    intros [= Hu]. apply negb_false_iff in Hu.
    destruct (truthy_member_obj _ _ _ Hm Hu) as (o & -> & <-). eauto.
  - intros (o & -> & Hu). simpl. rewrite Hu. reflexivity.
Qed.

Lemma no_user_id_total (formData : value) :
  VariantA.no_user_id formData ≠ None.
Proof.
  unfold VariantA.no_user_id. destruct formData; simpl; try discriminate.
  - destruct b; discriminate.
  - destruct (negb _); discriminate.
  - destruct (negb _); discriminate.
Qed.


Lemma Booking_save_Some (b : Booking.t) (db db' : DB) :
  Booking_save b db = Some db' ↔
  inserted b db db' ∧
  existsb (λ b', String.eqb (Booking._id b') (Booking._id b)) (bookings db) = false.
Proof.
  unfold Booking_save, inserted.
  destruct (existsb _ _); split; try discriminate; try (intros [_ ?]; discriminate).
  - intros [= <-]. split; reflexivity.
  - intros [-> _]. reflexivity.
Qed.

Lemma inserted_neq (b : Booking.t) (db db' : DB) : inserted b db db' → db' ≠ db.
Proof.
  intros -> Heq. apply (f_equal (λ d, length (bookings d))) in Heq. simpl in Heq.
  rewrite length_app in Heq. simpl in Heq. lia.
Qed.

End Facts.

(** ** The outcomes of verify-payment *)

Section VerifyPayment.
Context `{!Platform} (env : Env).

(** Every run of variant A's handler is one of five: the booking is
    inserted, or nothing is written and the response tells why. *)
Lemma verify_payment_A_outcome (body : gmap string value) (random : Q)
    (fresh : ObjectId) (now : Date) (db : DB) :
  let out := VariantA.verify_payment env body random fresh now db in
  let formData := JS.prop body "formData" in
  let obj := VariantA.booking_object body (new_bookingId random) in
  (∃ b, VariantA.no_user_id formData = Some false ∧ signature_valid env body = true ∧
        new_Booking obj fresh now = Some b ∧ Booking_save b db = Some out.2 ∧
        out.1 = success_body b)
  ∨ (out.2 = db ∧
     ((VariantA.no_user_id formData = Some true ∧
       out.1 = error 400 "User ID is required")
      ∨ (VariantA.no_user_id formData = Some false ∧ RAZORPAY_KEY_SECRET env = None ∧
         out.1 = error 500 "Error verifying payment")
      ∨ (VariantA.no_user_id formData = Some false ∧ is_Some (RAZORPAY_KEY_SECRET env) ∧
         signature_valid env body = false ∧
         out.1 = error 400 "Invalid payment signature")
      ∨ (VariantA.no_user_id formData = Some false ∧ signature_valid env body = true ∧
         (∀ b, new_Booking obj fresh now = Some b → Booking_save b db = None) ∧
         out.1 = error 500 "Error verifying payment"))).
Proof.
  intros out formData obj. subst out obj formData.
  unfold VariantA.verify_payment, signature_valid.
  pose proof (no_user_id_total (JS.prop body "formData")) as Htot.
  destruct (VariantA.no_user_id (JS.prop body "formData")) as [[|]|]; [| |done].
  { right. simpl. eauto. }
  unfold generated_signature.
  destruct (RAZORPAY_KEY_SECRET env) as [key|] eqn:Hkey; simpl.
  2:{ right. split; [done|]. right. left. done. }
  destruct (signature_mismatch _ body) eqn:Hmis; simpl.
  { right. split; [done|]. right. right. left. eauto. }
  destruct (new_Booking _ fresh now) as [b|] eqn:Hnew; simpl.
  2:{ right. split; [done|]. do 3 right. repeat split; auto; discriminate. }
  destruct (Booking_save b db) as [db'|] eqn:Hsave; simpl.
  - left. exists b. repeat split; auto.
  - right. split; [done|]. do 3 right. repeat split; auto. congruence.
Qed.

(** Variant B has no guard on [formData]; reading a property of a
    [formData] that is not there throws. *)
Lemma verify_payment_B_outcome (body : gmap string value) (random : Q)
    (fresh : ObjectId) (now : Date) (db : DB) :
  let out := VariantB.verify_payment env body random fresh now db in
  let obj := VariantB.booking_object body (new_bookingId random) in
  (∃ o b, signature_valid env body = true ∧ obj = Some o ∧
          new_Booking o fresh now = Some b ∧ Booking_save b db = Some out.2 ∧
          out.1 = success_body b)
  ∨ (out.2 = db ∧
     ((RAZORPAY_KEY_SECRET env = None ∧ out.1 = error 500 "Error verifying payment")
      ∨ (is_Some (RAZORPAY_KEY_SECRET env) ∧ signature_valid env body = false ∧
         out.1 = error 400 "Invalid payment signature")
      ∨ (signature_valid env body = true ∧
         (∀ o b, obj = Some o → new_Booking o fresh now = Some b →
                 Booking_save b db = None) ∧
         out.1 = error 500 "Error verifying payment"))).
Proof.
  intros out obj. subst out obj.
  unfold VariantB.verify_payment, signature_valid, generated_signature.
  destruct (RAZORPAY_KEY_SECRET env) as [key|] eqn:Hkey; simpl.
  2:{ right. split; [done|]. left. done. }
  destruct (signature_mismatch _ body) eqn:Hmis; simpl.
  { right. split; [done|]. right. left. eauto. }
  destruct (VariantB.booking_object body _) as [o|] eqn:Hobj; simpl.
  2:{ right. split; [done|]. do 2 right. repeat split; auto; discriminate. }
  destruct (new_Booking o fresh now) as [b|] eqn:Hnew; simpl.
  2:{ right. split; [done|]. do 2 right. repeat split; auto.
      intros o' b' [= <-]. congruence. }
  destruct (Booking_save b db) as [db'|] eqn:Hsave; simpl.
  - left. exists o, b. repeat split; auto.
  - right. split; [done|]. do 2 right. repeat split; auto.
    intros o' b' [= <-]. congruence.
Qed.

End VerifyPayment.

(** ** What a persisted booking holds *)

Section PersistedBooking.
Context `{!Platform} (env : Env).

Lemma inserted_inj (b b' : Booking.t) (db db' : DB) :
  inserted b db db' → inserted b' db db' → b = b'.
Proof.
  unfold inserted. intros -> [= Heq]. apply app_inj_tail in Heq as [_ Heq].
  exact Heq.
Qed.

(** The paths of a document that passed [new Booking] and validation. *)
Lemma new_Booking_Some (obj : gmap string value) (fresh : ObjectId) (now : Date)
    (b : Booking.t) :
  new_Booking obj fresh now = Some b →
  path_id fresh (JS.prop obj "_id") = Some (Booking._id b) ∧
  cast_tickets (JS.prop obj "tickets") = Some (Booking.tickets b) ∧
  required_Number (JS.prop obj "totalAmount") = Some (Booking.totalAmount b) ∧
  required_String (JS.prop obj "name") = Some (Booking.name b) ∧
  required_String (JS.prop obj "email") = Some (Booking.email b) ∧
  required_String (JS.prop obj "phone") = Some (Booking.phone b) ∧
  required_ObjectId (JS.prop obj "userId") = Some (Booking.userId b) ∧
  required_String (JS.prop obj "paymentId") = Some (Booking.paymentId b) ∧
  required_String (JS.prop obj "bookingId") = Some (Booking.bookingId b) ∧
  path_status (JS.prop obj "status") = Some (Booking.status b) ∧
  path_createdAt now (JS.prop obj "createdAt") = Some (Booking.createdAt b).
Proof.
  unfold new_Booking. intros Hnew.
  destruct (path_id _ _); [|discriminate].
  destruct (cast_tickets _); [|discriminate].
  destruct (required_Number _); [|discriminate].
  destruct (required_String (JS.prop obj "name")); [|discriminate].
  destruct (required_String (JS.prop obj "email")); [|discriminate].
  destruct (required_String (JS.prop obj "phone")); [|discriminate].
  destruct (required_ObjectId _); [|discriminate].
  destruct (required_String (JS.prop obj "paymentId")); [|discriminate].
  destruct (required_String (JS.prop obj "bookingId")); [|discriminate].
  destruct (path_status _); [|discriminate].
  destruct (path_createdAt _ _); [|discriminate].
  simpl in Hnew. injection Hnew as <-. simpl. repeat split; reflexivity.
Qed.

Lemma required_String_Some (v : value) (s : string) :
  required_String v = Some s → castString v = Some s ∧ s ≠ "" ∧ v ≠ VUndef ∧ v ≠ VNull.
Proof.
  unfold required_String. intros Hr.
  assert (Hc : (s' ← castString v; if String.eqb s' "" then None else Some s') = Some s
               ∧ v ≠ VUndef ∧ v ≠ VNull)
    by (destruct v; try discriminate; auto).
  destruct Hc as (Hc & Hu & Hn).
  destruct (castString v) as [s'|]; [|discriminate]. simpl in Hc.
  destruct (String.eqb s' "") eqn:He; [discriminate|].
  injection Hc as ->. apply String.eqb_neq in He. auto.
Qed.

Lemma required_String_VStr (s t : string) :
  required_String (VStr s) = Some t → t = s.
Proof.
  intros Hr. apply required_String_Some in Hr as (Hc & _). simpl in Hc. congruence.
Qed.

Lemma path_status_Some (v : value) (st : Status) :
  path_status v = Some st →
  (v = VUndef ∧ st = CONFIRMED) ∨ (∃ s, castString v = Some s ∧ enum_Status s = Some st).
Proof.
  unfold path_status. intros Hp.
  assert (Hc : (v = VUndef ∧ st = CONFIRMED) ∨ required_String v ≫= enum_Status = Some st).
  { destruct v; auto. left. split; congruence. }
  destruct Hc as [?|Hc]; [auto|].
  destruct (required_String v) as [s|] eqn:Hr; [|discriminate]. simpl in Hc.
  apply required_String_Some in Hr as (Hr & _). eauto.
Qed.



Lemma booking_object_A_other (body : gmap string value) (bookingId k : string) :
  k ≠ "paymentId" → k ≠ "bookingId" →
  JS.prop (VariantA.booking_object body bookingId) k =
    JS.prop (JS.spread (JS.prop body "formData")) k.
Proof.
  intros Hp Hb. unfold VariantA.booking_object, JS.prop.
  rewrite lookup_insert_ne by congruence. rewrite lookup_insert_ne by congruence.
  reflexivity.
Qed.

(** The object of variant B has eight properties and no others. *)
Lemma booking_object_B_Some (body : gmap string value) (bookingId : string)
    (o : gmap string value) :
  VariantB.booking_object body bookingId = Some o →
  JS.prop o "paymentId" = JS.prop body "razorpay_payment_id" ∧
  JS.prop o "bookingId" = VStr bookingId ∧
  JS.prop o "status" = VUndef ∧ JS.prop o "_id" = VUndef ∧
  JS.prop o "createdAt" = VUndef.
Proof.
  unfold VariantB.booking_object. intros Ho.
  destruct (JS.member _ "tickets"); [|discriminate].
  destruct (JS.member _ "totalAmount"); [|discriminate].
  destruct (JS.member _ "name"); [|discriminate].
  destruct (JS.member _ "email"); [|discriminate].
  destruct (JS.member _ "phone"); [|discriminate].
  destruct (JS.member _ "userId"); [|discriminate].
  simpl in Ho. injection Ho as <-. repeat split; reflexivity.
Qed.

(** A booking variant A inserted is the document made of the request. *)
Lemma verify_payment_A_inserted (body : gmap string value) (random : Q)
    (fresh : ObjectId) (now : Date) (db : DB) (b : Booking.t) :
  inserted b db (VariantA.verify_payment env body random fresh now db).2 →
  VariantA.no_user_id (JS.prop body "formData") = Some false ∧
  signature_valid env body = true ∧
  new_Booking (VariantA.booking_object body (new_bookingId random)) fresh now = Some b ∧
  is_Some (Booking_save b db) ∧
  (VariantA.verify_payment env body random fresh now db).1 = success_body b.
Proof.
  intros Hins.
  destruct (verify_payment_A_outcome env body random fresh now db)
    as [(b' & Hg & Hs & Hn & Hsave & Hr)|[Hdb _]].
  - pose proof Hsave as Hsave'. apply Booking_save_Some in Hsave' as [Hins' _].
    rewrite (inserted_inj _ _ _ _ Hins Hins'). eauto 10.
  - exfalso. apply (inserted_neq _ _ _ Hins). exact Hdb.
Qed.

Lemma verify_payment_B_inserted (body : gmap string value) (random : Q)
    (fresh : ObjectId) (now : Date) (db : DB) (b : Booking.t) :
  inserted b db (VariantB.verify_payment env body random fresh now db).2 →
  signature_valid env body = true ∧
  (∃ o, VariantB.booking_object body (new_bookingId random) = Some o ∧
        new_Booking o fresh now = Some b) ∧
  is_Some (Booking_save b db) ∧
  (VariantB.verify_payment env body random fresh now db).1 = success_body b.
Proof.
  intros Hins.
  destruct (verify_payment_B_outcome env body random fresh now db)
    as [(o & b' & Hs & Ho & Hn & Hsave & Hr)|[Hdb _]].
  - pose proof Hsave as Hsave'. apply Booking_save_Some in Hsave' as [Hins' _].
    rewrite (inserted_inj _ _ _ _ Hins Hins'). eauto 10.
  - exfalso. apply (inserted_neq _ _ _ Hins). exact Hdb.
Qed.

End PersistedBooking.

(** ** Payment verification and persistence *)

Section SignatureGate.
Context `{!Platform} (env : Env).


End SignatureGate.



Section PersistedFields.
Context `{!Platform} (env : Env).

(** Variant B never hands a [status] to [new Booking]: what it inserts has
    the default of the schema. *)
Lemma verify_payment_B_status_confirmed (body : gmap string value) (random : Q)
    (fresh : ObjectId) (now : Date) (db : DB) (b : Booking.t) :
  inserted b db (VariantB.verify_payment env body random fresh now db).2 →
  Booking.status b = CONFIRMED.
Proof.
  intros Hins. apply (verify_payment_B_inserted env) in Hins.
  destruct Hins as (_ & (o & Ho & Hnew) & _).
  apply booking_object_B_Some in Ho as (_ & _ & Hst & _).
  apply new_Booking_Some in Hnew. destruct Hnew as (_&_&_&_&_&_&_&_&_& Hs &_).
  rewrite Hst in Hs. simpl in Hs. congruence.
Qed.

(** Variant A inserts the default when the form names no [status]. *)
Lemma verify_payment_A_status_default (body : gmap string value) (random : Q)
    (fresh : ObjectId) (now : Date) (db : DB) (b : Booking.t) :
  JS.prop (JS.spread (JS.prop body "formData")) "status" = VUndef →
  inserted b db (VariantA.verify_payment env body random fresh now db).2 →
  Booking.status b = CONFIRMED.
Proof.
  intros Hst Hins. apply (verify_payment_A_inserted env) in Hins.
  destruct Hins as (_ & _ & Hnew & _).
  apply new_Booking_Some in Hnew. destruct Hnew as (_&_&_&_&_&_&_&_&_& Hs &_).
  rewrite booking_object_A_other in Hs by discriminate.
  rewrite Hst in Hs. simpl in Hs. congruence.
Qed.

(** C2 fails in variant A.  The object given to [new Booking] is
    [{ ...formData, paymentId, bookingId }], so a [status] the client puts in
    [formData] reaches the [status] path: a booking inserted for a form
    whose [status] is "PENDING" has the status [PENDING]. *)
Theorem verify_payment_A_status_from_form (body o : gmap string value)
    (random : Q) (fresh : ObjectId) (now : Date) (db : DB) (b : Booking.t) :
  JS.prop body "formData" = VObj o →
  o !! "status" = Some (VStr "PENDING") →
  inserted b db (VariantA.verify_payment env body random fresh now db).2 →
  Booking.status b = PENDING.
Proof.
  intros Hform Hst Hins. apply (verify_payment_A_inserted env) in Hins.
  destruct Hins as (_ & _ & Hnew & _).
  apply new_Booking_Some in Hnew. destruct Hnew as (_&_&_&_&_&_&_&_&_& Hs &_).
  rewrite booking_object_A_other in Hs by discriminate.
  rewrite Hform in Hs. unfold JS.prop in Hs. simpl in Hs. rewrite Hst in Hs.
  simpl in Hs. change (enum_Status "PENDING") with (Some PENDING) in Hs.
  congruence.
Qed.


End PersistedFields.

(** The form of [meddling_form] names [status], [paymentId] and
    [bookingId]; variant A inserts it with the client's status. *)
Lemma verify_payment_A_status_from_form_witness :
  inserted (demo_booking 1900 PENDING) empty_db
    (VariantA.verify_payment (H:=demo) demo_env (signed_request (VObj meddling_form))
       (1#2) booking_1 1000%Z empty_db).2 ∧
  Booking.status (demo_booking 1900 PENDING) = PENDING.
Proof.
  assert (Hins : inserted (demo_booking 1900 PENDING) empty_db
            (VariantA.verify_payment (H:=demo) demo_env
               (signed_request (VObj meddling_form)) (1#2) booking_1 1000%Z empty_db).2)
    by (vm_compute; reflexivity).
  split; [exact Hins|].
  apply (verify_payment_A_status_from_form (H:=demo) demo_env
           (signed_request (VObj meddling_form)) meddling_form
           (1#2) booking_1 1000%Z empty_db _ eq_refl eq_refl Hins).
Defined.


(** ** Passes *)

Section Passes.
Context `{!Platform} (env : Env).




(** [.map(...).flat()] and [.flatMap(...)] expand alike. *)
Lemma passes_A_B (bs : list Booking.t) : passes_A bs = passes_B bs.
Proof.
  unfold passes_A, passes_B. induction bs as [|b bs IH]; simpl; [reflexivity|].
  rewrite IH. reflexivity.
Qed.

Lemma passes_B_block (before after : list Booking.t) (b : Booking.t) :
  passes_B (before ++ b :: after) =
    (passes_B before ++ passes_of b ++ passes_B after)%list.
Proof.
  unfold passes_B. rewrite flat_map_app. simpl. reflexivity.
Qed.





End Passes.



(** ** The access guard *)

Section AccessGuard.
Context `{!Platform} (env : Env).

Lemma prefix_app (p s : string) :
  String.prefix p s = true ↔ ∃ rest, s = p +:+ rest.
Proof.
  revert s. induction p as [|a p IH]; intros s.
  - destruct s; simpl; split; eauto.
  - destruct s as [|c s]; simpl.
    + split; [discriminate | intros [rest Hr]; discriminate].
    + destruct (ascii_dec a c) as [->|Hne].
      * rewrite IH. split; intros [rest Hr]; exists rest.
        -- rewrite Hr. reflexivity.
        -- change (String c p +:+ rest) with (String c (p +:+ rest)) in Hr.
           congruence.
      * split; [discriminate|]. intros [rest Hr].
        change (String a p +:+ rest) with (String a (p +:+ rest)) in Hr.
        congruence.
Qed.

(** The guard of lines 165 and 392 lets through exactly the headers of the
    form [Bearer <token>]. *)
Lemma no_bearer_spec (authHeader : option string) :
  no_bearer authHeader = false ↔ bearer_form authHeader.
Proof.
  unfold no_bearer, bearer_form. destruct authHeader as [h|].
  - rewrite orb_false_iff, negb_false_iff, prefix_app. split.
    + intros [_ [rest ->]]. eauto.
    + intros [rest [= ->]]. split; [reflexivity | eauto].
  - split; [discriminate | intros [rest Hr]; discriminate].
Qed.

Lemma no_bearer_true (authHeader : option string) :
  ¬ bearer_form authHeader → no_bearer authHeader = true.
Proof.
  rewrite <- no_bearer_spec. destruct (no_bearer authHeader); congruence.
Qed.

Lemma error_no_array (code : nat) (message : string) :
  ¬ carries_array (error code message).
Proof. intros [l Hl]. discriminate. Qed.

(** C4.  A request to [GET /api/bookings/my-passes] whose Authorization
    header is absent or not of the form [Bearer <token>] is answered 401 "No
    token, authorization denied" by both variants; one whose token
    [jwt.verify] rejects is answered 401 "Token is not valid" by variant A
    and 401 "Invalid token" by variant B.  Neither response carries an array
    of passes. *)
Theorem my_passes_unauthorized (authHeader : option string) (now : Date) (db : DB) :
  let rA := VariantA.my_passes env authHeader now db in
  let rB := VariantB.my_passes env authHeader now db in
  (¬ bearer_form authHeader →
     rA = error 401 "No token, authorization denied" ∧
     rB = error 401 "No token, authorization denied") ∧
  (bearer_form authHeader →
     (VariantA.verify_token env (bearer_token authHeader) now = None →
        rA = error 401 "Token is not valid") ∧
     (VariantB.verify_token env (bearer_token authHeader) now = None →
        rB = error 401 "Invalid token")) ∧
  (res_status rA = 401 → ¬ carries_array rA) ∧
  (res_status rB = 401 → ¬ carries_array rB).
Proof.
  intros rA rB. subst rA rB. split; [|split; [|split]].
  - intros Hno. apply no_bearer_true in Hno.
    unfold VariantA.my_passes, VariantB.my_passes, VariantB.auth. rewrite Hno.
    split; reflexivity.
  - intros Hb. apply no_bearer_spec in Hb.
    unfold VariantA.my_passes, VariantB.my_passes, VariantB.auth. rewrite Hb.
    split; intros ->; reflexivity.
  - unfold VariantA.my_passes.
    destruct (no_bearer authHeader); [intros _; apply error_no_array|].
    destruct (VariantA.verify_token env _ now) as [decoded|];
      [|intros _; apply error_no_array].
    destruct (VariantA.bookings_of_decoded decoded db);
      [discriminate | intros _; apply error_no_array].
  - unfold VariantB.my_passes, VariantB.auth.
    destruct (no_bearer authHeader); [intros _; apply error_no_array|].
    destruct (VariantB.verify_token env _ now) as [decoded|];
      [|intros _; apply error_no_array].
    destruct (JS.member decoded "id") as [userId|]; [|intros _; apply error_no_array].
    destruct (Booking_find_userId userId db);
      [discriminate | intros _; apply error_no_array].
Qed.

End AccessGuard.

(** On [demo]: no header, a header that is not of the bearer form, and a
    bearer token signed with another secret. *)
Lemma my_passes_unauthorized_witness :
  VariantA.my_passes (H:=demo) demo_env None 2000%Z (demo_db 1900) =
    error 401 "No token, authorization denied" ∧
  VariantB.my_passes (H:=demo) demo_env (Some "Basic dXNlcjpwdw==") 2000%Z (demo_db 1900) =
    error 401 "No token, authorization denied" ∧
  VariantA.my_passes (H:=demo) demo_env (Some forged_bearer) 2000%Z (demo_db 1900) =
    error 401 "Token is not valid" ∧
  VariantB.my_passes (H:=demo) demo_env (Some forged_bearer) 2000%Z (demo_db 1900) =
    error 401 "Invalid token".
Proof.
  split; [|split; [|split]].
  - apply (my_passes_unauthorized (H:=demo) demo_env None 2000%Z (demo_db 1900)).
    intros [rest Hr]. discriminate.
  - apply (my_passes_unauthorized (H:=demo) demo_env (Some "Basic dXNlcjpwdw==")
             2000%Z (demo_db 1900)).
    intros [rest Hr]. discriminate.
  - apply (my_passes_unauthorized (H:=demo) demo_env (Some forged_bearer)
             2000%Z (demo_db 1900)).
    + exists ("other." +:+ asha_id). reflexivity.
    + vm_compute. reflexivity.
  - apply (my_passes_unauthorized (H:=demo) demo_env (Some forged_bearer)
             2000%Z (demo_db 1900)).
    + exists ("other." +:+ asha_id). reflexivity.
    + vm_compute. reflexivity.
Defined.

(** ** Registration and login *)

Section Identity.
Context `{!Platform} (env : Env).

Lemma option_string_eqb_Some (a : option string) (e : string) :
  option_string_eqb a (Some e) = true ↔ a = Some e.
Proof.
  destruct a as [x|]; simpl; [|split; discriminate].
  rewrite String.eqb_eq. split; congruence.
Qed.

(** [User.findOne({ email })] for an email no user has, and for one a user
    has. *)
Lemma findOne_unknown (e : string) (db : DB) :
  (∀ u, u ∈ users db → User.email u ≠ Some e) →
  User_findOne_email (VStr e) db = Some None.
Proof.
  intros Hno. simpl. f_equal.
  destruct (find _ (users db)) as [u|] eqn:Hf; [|reflexivity].
  apply find_some in Hf as [Hin He]. apply option_string_eqb_Some in He.
  apply list_elem_of_In in Hin. destruct (Hno u Hin He).
Qed.

Lemma findOne_known (e : string) (db : DB) :
  (∃ u, u ∈ users db ∧ User.email u = Some e) →
  ∃ user, User_findOne_email (VStr e) db = Some (Some user) ∧
          user ∈ users db ∧ User.email user = Some e.
Proof.
  intros (u & Hin & He). simpl.
  destruct (find _ (users db)) as [user|] eqn:Hf.
  - apply find_some in Hf as [Hin' He']. apply option_string_eqb_Some in He'.
    apply list_elem_of_In in Hin'. eauto.
  - apply list_elem_of_In in Hin.
    pose proof (find_none _ _ Hf u Hin) as Hnone. simpl in Hnone.
    apply option_string_eqb_Some in He. congruence.
Qed.


(** C7.  A registration whose email a user already has is refused with
    status 400 ("Email already in use" in variant A, "User already exists" in
    variant B) and leaves the database as it was. *)
Theorem register_conflict (body : gmap string value) (e salt : string)
    (fresh : ObjectId) (now : Date) (db : DB) :
  JS.prop body "email" = VStr e →
  (∃ u, u ∈ users db ∧ User.email u = Some e) →
  VariantA.register env body salt fresh now db =
    (error 400 "Email already in use", db) ∧
  VariantB.register env body salt fresh now db =
    (error 400 "User already exists", db).
Proof.
  intros He Hyes. apply findOne_known in Hyes as (user & Hfind & _).
  unfold VariantA.register, VariantB.register. rewrite He, Hfind.
  split; reflexivity.
Qed.

Lemma User_save_fresh (u : User.t) (db : DB) :
  (∀ u', u' ∈ users db → User._id u' ≠ User._id u) →
  (∀ u', u' ∈ users db → User.email u' ≠ User.email u) →
  User_save u db = Some {| users := users db ++ [u]; bookings := bookings db |}.
Proof.
  intros Hid Hem. unfold User_save.
  destruct (existsb _ (users db)) eqn:Hex; [|reflexivity].
  apply existsb_exists in Hex as (u' & Hin & Hor).
  apply list_elem_of_In in Hin. apply orb_true_iff in Hor as [Heq|Heq].
  - apply String.eqb_eq in Heq. destruct (Hid u' Hin Heq).
  - exfalso. apply (Hem u' Hin).
    destruct (User.email u') as [x|], (User.email u) as [y|]; simpl in Heq;
      try discriminate; [|reflexivity].
    apply String.eqb_eq in Heq. congruence.
Qed.

Lemma find_app_None {A} (f : A → bool) (l l' : list A) :
  find f l = None → find f (l ++ l') = find f l'.
Proof.
  induction l as [|x l IH]; simpl; [reflexivity|].
  destruct (f x); [discriminate | exact IH].
Qed.

Lemma required_String_nonempty (s : string) :
  s ≠ "" → required_String (VStr s) = Some s.
Proof.
  intros Hs. simpl. apply String.eqb_neq in Hs. rewrite Hs. reflexivity.
Qed.

(** C8.  In variant A, a registration whose name, email, phone and
    password are non-empty strings and whose email no user has succeeds: the
    user is stored with the hash of the password and the response carries a
    token and the profile.  A login after it with the same email and password
    succeeds with a token and the profile.  The hypotheses on the platform
    are that the [_id] generated is new, that the hash is not the empty
    string and that [bcrypt.compare] accepts the password against its own
    hash. *)
Theorem register_then_login (body again : gmap string value)
    (nm e ph pw salt : string) (fresh : ObjectId) (now later : Date) (db : DB) :
  JS.prop body "name" = VStr nm → JS.prop body "email" = VStr e →
  JS.prop body "phone" = VStr ph → JS.prop body "password" = VStr pw →
  nm ≠ "" → e ≠ "" → ph ≠ "" →
  (∀ u, u ∈ users db → User.email u ≠ Some e) →
  (∀ u, u ∈ users db → User._id u ≠ fresh) →
  bcrypt_hash pw salt ≠ "" →
  bcrypt_compare pw (bcrypt_hash pw salt) = true →
  JS.prop again "email" = VStr e → JS.prop again "password" = VStr pw →
  let user := {| User._id := fresh; User.name := Some nm; User.email := Some e;
                 User.phone := Some ph;
                 User.password := Some (bcrypt_hash pw salt) |} in
  let db' := {| users := users db ++ [user]; bookings := bookings db |} in
  let payload := json_object [("userId", VStr fresh)] in
  let secret := VariantA.JWT_SECRET_or_default env in
  VariantA.register env body salt fresh now db =
    (json (json_object
             [("token", VStr (jwt_sign payload secret "7d" now));
              ("user", json_object [("userId", VStr fresh); ("name", VStr nm);
                                    ("email", VStr e); ("phone", VStr ph)])]),
     db') ∧
  VariantA.login env again later db' =
    json (json_object
            [("token", VStr (jwt_sign payload secret "7d" later));
             ("user", json_object [("id", VStr fresh); ("name", VStr nm);
                                   ("email", VStr e); ("phone", VStr ph)])]).
Proof.
  intros Hnm He Hph Hpw Nnm Ne Nph Hno Hid Nhash Hcmp He' Hpw' user db' payload secret.
  assert (Hsave : User_save user db = Some db')
    by (apply User_save_fresh; subst user; simpl; auto).
  subst user db' payload secret. split.
  - unfold VariantA.register. rewrite Hnm, He, Hph, Hpw.
    rewrite (findOne_unknown _ _ Hno).
    unfold new_User_A.
    rewrite !required_String_nonempty by assumption. simpl.
    rewrite Hsave. reflexivity.
  - unfold VariantA.login. rewrite He', Hpw'.
    set (user := {| User._id := fresh; User.name := Some nm; User.email := Some e;
                    User.phone := Some ph;
                    User.password := Some (bcrypt_hash pw salt) |}).
    set (db' := {| users := users db ++ [user]; bookings := bookings db |}).
    assert (Hfind : User_findOne_email (VStr e) db' = Some (Some user)).
    { simpl. f_equal. rewrite find_app_None.
      - simpl. rewrite String.eqb_refl. reflexivity.
      - destruct (find _ (users db)) as [u|] eqn:Hf; [|reflexivity].
        apply find_some in Hf as [Hin Hu]. apply option_string_eqb_Some in Hu.
        apply list_elem_of_In in Hin. destruct (Hno u Hin Hu). }
    rewrite Hfind. simpl. rewrite Hcmp. reflexivity.
Qed.

End Identity.


Lemma register_conflict_witness :
  VariantA.register (H:=demo) demo_env demo_registration "salt" other_id 2000%Z
    (demo_db 1900) = (error 400 "Email already in use", demo_db 1900) ∧
  VariantB.register (H:=demo) demo_env demo_registration "salt" other_id 2000%Z
    (demo_db 1900) = (error 400 "User already exists", demo_db 1900).
Proof.
  apply (register_conflict (H:=demo) demo_env demo_registration
           "asha@example.com" "salt" other_id 2000%Z (demo_db 1900)).
  - reflexivity.
  - exists demo_user. split; [apply list_elem_of_singleton|]; reflexivity.
Defined.

Lemma register_then_login_witness :
  (VariantA.register (H:=demo) demo_env demo_registration "salt" asha_id 1000%Z
     empty_db).2 = {| users := [demo_user]; bookings := [] |} ∧
  res_status (VariantA.login (H:=demo) demo_env
                (login_request "asha@example.com" "hunter2") 2000%Z
                {| users := [demo_user]; bookings := [] |}) = 200.
Proof.
  destruct (register_then_login (H:=demo) demo_env demo_registration
              (login_request "asha@example.com" "hunter2")
              "Asha" "asha@example.com" "9876543210" "hunter2" "salt" asha_id
              1000%Z 2000%Z empty_db) as [Hreg Hlogin];
    try reflexivity; try discriminate.
  - intros u Hin. inversion Hin.
  - intros u Hin. inversion Hin.
  - split.
    + rewrite Hreg. reflexivity.
    + change {| users := [demo_user]; bookings := [] |}
        with {| users := users empty_db ++ [demo_user]; bookings := bookings empty_db |}.
      unfold demo_user. change "$2a$10$salt$hunter2"
        with (bcrypt_hash (Platform:=demo) "hunter2" "salt").
      rewrite Hlogin. reflexivity.
Defined.

(** ** What a registration stores and returns *)

Section Profile.
Context `{!Platform} (env : Env).

(** The document [res.json] serialises carries the [password] path. *)
Lemma User_toJSON_password (u : User.t) (hash : string) :
  User.password u = Some hash →
  field (User_toJSON u) "password" = Some (VStr hash).
Proof.
  intros Hp. unfold User_toJSON. rewrite Hp.
  destruct (User.name u), (User.email u), (User.phone u); reflexivity.
Qed.

Lemma user_of_response_json (token : string) (user : value) :
  is_undefined user = false →
  user_of_response
    (json (json_object [("token", VStr token); ("user", user)])) = user ∧
  user_of_response
    {| res_status := 201;
       res_body := json_object [("token", VStr token); ("user", user)] |} = user.
Proof.
  intros Hu. unfold user_of_response, json, json_object. simpl. rewrite Hu.
  split; reflexivity.
Qed.

(** A successful registration in variant B, taken apart. *)
Lemma register_B_created (body : gmap string value) (salt : string)
    (fresh : ObjectId) (now : Date) (db : DB) :
  res_status (VariantB.register env body salt fresh now db).1 = 201 →
  ∃ pw user token,
    JS.prop body "password" = VStr pw ∧
    new_User_B (JS.prop body "name") (JS.prop body "email") (JS.prop body "phone")
      (bcrypt_hash pw salt) fresh = Some user ∧
    User_save user db = Some (VariantB.register env body salt fresh now db).2 ∧
    (VariantB.register env body salt fresh now db).1 =
      {| res_status := 201;
         res_body := json_object [("token", VStr token); ("user", User_toJSON user)] |}.
Proof.
  unfold VariantB.register.
  destruct (User_findOne_email _ db) as [[?|]|]; try discriminate.
  destruct (JS.prop body "password") as [| | | |pw| |]; try discriminate.
  destruct (new_User_B _ _ _ _ fresh) as [user|] eqn:Hnew; [|discriminate].
  destruct (User_save user db) as [db'|] eqn:Hsave; [|discriminate].
  destruct (VariantB.sign env _ now) as [token|]; [|discriminate].
  intros _. exists pw, user, token. repeat split; assumption.
Qed.

Lemma new_User_B_password (nm em ph : value) (hashed : string) (fresh : ObjectId)
    (user : User.t) :
  new_User_B nm em ph hashed fresh = Some user → User.password user = Some hashed.
Proof.
  unfold new_User_B.
  destruct (optional_String nm); [|discriminate].
  destruct (optional_String em); [|discriminate].
  destruct (optional_String ph); [|discriminate].
  simpl. intros [= <-]. reflexivity.
Qed.

Lemma User_save_Some (u : User.t) (db db' : DB) :
  User_save u db = Some db' → registered u db db'.
Proof.
  unfold User_save, registered. destruct (existsb _ _); [discriminate|].
  intros [= <-]. reflexivity.
Qed.

(** C6 fails in variant B.  [POST /register] answers a successful
    registration (status 201) with [{ token, user }] where [user] is the
    stored document: the user inserted holds the hash of the password, and
    the [user] object of the response has a [password] property, that
    hash. *)
Theorem register_B_returns_password_hash (body : gmap string value)
    (salt : string) (fresh : ObjectId) (now : Date) (db : DB) :
  let out := VariantB.register env body salt fresh now db in
  res_status out.1 = 201 →
  ∃ pw user,
    JS.prop body "password" = VStr pw ∧
    registered user db out.2 ∧
    User.password user = Some (bcrypt_hash pw salt) ∧
    field (user_of_response out.1) "password" = Some (VStr (bcrypt_hash pw salt)).
Proof.
  intros out Hok. subst out.
  destruct (register_B_created _ _ _ _ _ Hok) as (pw & user & token & Hpw & Hnew & Hsave & Hr).
  exists pw, user. split; [exact Hpw|]. split; [apply User_save_Some; exact Hsave|].
  pose proof (new_User_B_password _ _ _ _ _ _ Hnew) as Hhash.
  split; [exact Hhash|]. rewrite Hr.
  destruct (user_of_response_json token (User_toJSON user) eq_refl) as [_ ->].
  apply User_toJSON_password. exact Hhash.
Qed.

(** Variant A answers a registration with the four properties it names:
    whenever it answers 200 the user inserted holds the hash of the password
    and the [user] object of the response has no [password] property. *)
Lemma register_A_omits_password (body : gmap string value) (salt : string)
    (fresh : ObjectId) (now : Date) (db : DB) :
  let out := VariantA.register env body salt fresh now db in
  res_status out.1 = 200 →
  ∃ pw user,
    JS.prop body "password" = VStr pw ∧
    registered user db out.2 ∧
    User.password user = Some (bcrypt_hash pw salt) ∧
    field (user_of_response out.1) "password" = None ∧
    field (res_body out.1) "password" = None.
Proof.
  intros out. subst out. unfold VariantA.register.
  destruct (User_findOne_email _ db) as [[?|]|]; try discriminate.
  destruct (JS.prop body "password") as [| | | |pw| |]; try discriminate.
  destruct (new_User_A _ _ _ _ fresh) as [user|] eqn:Hnew; [|discriminate].
  destruct (User_save user db) as [db'|] eqn:Hsave; [|discriminate].
  intros _. exists pw, user. split; [reflexivity|].
  split; [apply User_save_Some; exact Hsave|]. split.
  - unfold new_User_A in Hnew.
    destruct (required_String (JS.prop body "name")); [|discriminate].
    destruct (required_String (JS.prop body "email")); [|discriminate].
    destruct (required_String (JS.prop body "phone")); [|discriminate].
    destruct (required_String (VStr (bcrypt_hash pw salt))) as [h|] eqn:Hh;
      [|discriminate].
    apply required_String_VStr in Hh. simpl in Hnew. injection Hnew as <-.
    simpl. congruence.
  - simpl.
    destruct (JS.prop body "name"), (JS.prop body "email"), (JS.prop body "phone");
      split; reflexivity.
Qed.

End Profile.

Lemma register_B_returns_password_hash_witness :
  res_status (VariantB.register (H:=demo) demo_env demo_registration "salt" asha_id
                1000%Z empty_db).1 = 201 ∧
  field (user_of_response
           (VariantB.register (H:=demo) demo_env demo_registration "salt" asha_id
              1000%Z empty_db).1) "password" = Some (VStr "$2a$10$salt$hunter2").
Proof.
  assert (Hok : res_status (VariantB.register (H:=demo) demo_env demo_registration
                              "salt" asha_id 1000%Z empty_db).1 = 201)
    by (vm_compute; reflexivity).
  split; [exact Hok|].
  destruct (register_B_returns_password_hash (H:=demo) demo_env demo_registration
              "salt" asha_id 1000%Z empty_db Hok) as (pw & user & Hpw & _ & _ & Hfield).
  injection Hpw as <-. exact Hfield.
Defined.

(** ** Order creation *)

Section CreateOrder.
Context `{!Platform}.


End CreateOrder.


(** ** The status of the stored bookings over a run *)

Section Status.
Context `{!Platform} (env : Env) (razorpay : Gateway).

Lemma register_B_bookings (body : gmap string value) (salt : string)
    (fresh : ObjectId) (now : Date) (db : DB) :
  bookings (VariantB.register env body salt fresh now db).2 = bookings db.
Proof.
  unfold VariantB.register.
  destruct (User_findOne_email _ db) as [[?|]|]; try reflexivity.
  destruct (JS.prop body "password"); try reflexivity.
  destruct (new_User_B _ _ _ _ fresh) as [user|]; [|reflexivity].
  destruct (User_save user db) as [db'|] eqn:Hsave; [|reflexivity].
  apply User_save_Some in Hsave. rewrite Hsave.
  destruct (VariantB.sign env _ now); reflexivity.
Qed.

Lemma verify_payment_B_confirmed (body : gmap string value) (random : Q)
    (fresh : ObjectId) (now : Date) (db : DB) :
  all_confirmed db →
  all_confirmed (VariantB.verify_payment env body random fresh now db).2.
Proof.
  intros Hall.
  destruct (verify_payment_B_outcome env body random fresh now db)
    as [(o & b & _ & _ & _ & Hsave & _)|[-> _]]; [|exact Hall].
  apply Booking_save_Some in Hsave as [Hins _].
  pose proof (verify_payment_B_status_confirmed env _ _ _ _ _ _ Hins) as Hst.
  rewrite Hins. unfold all_confirmed. simpl. apply Forall_app. split; [exact Hall|].
  constructor; [exact Hst | constructor].
Qed.

Lemma handle_B_confirmed (q : VariantB.request) (db : DB) :
  all_confirmed db → all_confirmed (VariantB.handle env razorpay q db).2.
Proof.
  intros Hall. destruct q; simpl; try exact Hall.
  - unfold all_confirmed. rewrite register_B_bookings. exact Hall.
  - apply verify_payment_B_confirmed. exact Hall.
Qed.

(** In variant B no run of the application stores a booking whose status
    is not [CONFIRMED]: every handler keeps the stored bookings confirmed. *)
Theorem variant_B_bookings_confirmed (qs : list VariantB.request) (db : DB) :
  all_confirmed db → all_confirmed (VariantB.run env razorpay qs db).
Proof.
  unfold VariantB.run. revert db. induction qs as [|q qs IH]; intros db Hall.
  - exact Hall.
  - simpl. apply IH. apply handle_B_confirmed. exact Hall.
Qed.

End Status.

Lemma variant_B_bookings_confirmed_witness :
  bookings (VariantB.run (H:=demo) demo_env demo_gateway
              [VariantB.Register demo_registration "salt" asha_id 500%Z;
               VariantB.VerifyPayment (signed_request (VObj meddling_form))
                 (1#2) booking_1 1000%Z]
              empty_db) = [demo_booking 1900 CONFIRMED] ∧
  all_confirmed (VariantB.run (H:=demo) demo_env demo_gateway
                   [VariantB.Register demo_registration "salt" asha_id 500%Z;
                    VariantB.VerifyPayment (signed_request (VObj meddling_form))
                      (1#2) booking_1 1000%Z]
                   empty_db).
Proof.
  split; [vm_compute; reflexivity|].
  apply (variant_B_bookings_confirmed (H:=demo) demo_env demo_gateway).
  constructor.
Defined.

(** The same run in variant A ends with a booking that is [PENDING]. *)
Example variant_A_run_pending :
  bookings (VariantA.run (H:=demo) demo_env demo_gateway
              [VariantA.Register demo_registration "salt" asha_id 500%Z;
               VariantA.VerifyPayment (signed_request (VObj meddling_form))
                 (1#2) booking_1 1000%Z]
              empty_db) = [demo_booking 1900 PENDING].
Proof. vm_compute. reflexivity. Qed.

Lemma register_A_omits_password_witness :
  res_status (VariantA.register (H:=demo) demo_env demo_registration "salt" asha_id
                1000%Z empty_db).1 = 200 ∧
  field (user_of_response
           (VariantA.register (H:=demo) demo_env demo_registration "salt" asha_id
              1000%Z empty_db).1) "password" = None.
Proof.
  assert (Hok : res_status (VariantA.register (H:=demo) demo_env demo_registration
                              "salt" asha_id 1000%Z empty_db).1 = 200)
    by (vm_compute; reflexivity).
  split; [exact Hok|].
  destruct (register_A_omits_password (H:=demo) demo_env demo_registration
              "salt" asha_id 1000%Z empty_db Hok) as (pw & user & _ & _ & _ & Hfield & _).
  exact Hfield.
Defined.

(** ** The model on small inputs *)

Example split_bearer :
  JS.split " " "Bearer abc.def" = ["Bearer"; "abc.def"] ∧
  JS.split " " "Bearer  abc" = ["Bearer"; ""; "abc"] ∧
  JS.split " " "Bearer " = ["Bearer"; ""] ∧
  JS.split " " "Bearer" = ["Bearer"].
Proof. repeat split. Qed.

Example bearer_token_second_piece :
  bearer_token (Some "Bearer abc.def extra") = Some "abc.def" ∧
  bearer_token (Some "Bearer") = None ∧
  no_bearer (Some "Bearer") = true ∧ no_bearer (Some "bearer abc") = true ∧
  no_bearer (Some "") = true ∧ no_bearer (Some "Bearer abc") = false.
Proof. repeat split. Qed.

Example truthy_values :
  JS.truthy (VStr "") = false ∧ JS.truthy (VNum 0) = false ∧
  JS.truthy (VNum nan) = false ∧ JS.truthy (VStr "u1") = true ∧
  JS.truthy (VArr []) = true ∧ JS.truthy (VObj ∅) = true.
Proof. repeat split. Qed.

Example ToString_values :
  ToString (H:=demo) (VArr [VStr "a"; VNull; VArr [VStr "b"; VStr "c"]]) = "a,,b,c" ∧
  ToString (H:=demo) VUndef = "undefined" ∧
  ToString (H:=demo) (VObj ∅) = "[object Object]".
Proof. repeat split. Qed.

Example bookingId_of_random :
  new_bookingId 0 = "BN0" ∧ new_bookingId (1#2) = "BN5000" ∧
  new_bookingId (99999#100000) = "BN9999" ∧ new_bookingId (1234567#10000000) = "BN1234".
Proof. repeat split; vm_compute; reflexivity. Qed.

(** In binary64 too the product stays below 10000: the largest float below
    1 is multiplied to the largest float below 10000. *)
Example largest_random_times_10000 :
  PrimFloat.ltb (PrimFloat.mul (PrimFloat.next_down 1) 10000) 10000 = true ∧
  PrimFloat.mul (PrimFloat.next_down 1) 10000 = PrimFloat.next_down 10000.
Proof. repeat split. Qed.

(** The product [amount * 100] is the binary64 one: exact on the whole
    amounts of the ticket prices, rounded to the nearest float otherwise. *)
Example amount_in_minor_units :
  PrimFloat.mul 1900 100 = 190000%float ∧
  PrimFloat.mul 500 100 = 50000%float ∧
  PrimFloat.mul 19.99 100 = 1998.9999999999998%float ∧
  PrimFloat.eqb (PrimFloat.mul 19.99 100) 1999 = false.
Proof. repeat split. Qed.

(** The scenario of the specification: tickets of 2 × 500 and 1 × 900
    give two passes of 1000 and 900. *)
Example passes_of_scenario :
  map Pass.totalAmount (passes_of (demo_booking 1900 CONFIRMED)) =
    [1000%float; 900%float] ∧
  sum_numbers (map Pass.totalAmount (passes_of (demo_booking 1900 CONFIRMED))) =
    1900%float.
Proof. repeat split. Qed.

Example verify_payment_runs :
  VariantA.verify_payment (H:=demo) demo_env (signed_request (VObj (form 1900 [])))
    (1#2) booking_1 1000%Z empty_db =
    (success_body (H:=demo) (demo_booking 1900 CONFIRMED),
     {| users := []; bookings := [demo_booking 1900 CONFIRMED] |}) ∧
  VariantB.verify_payment (H:=demo) demo_env (signed_request (VObj (form 1900 [])))
    (1#2) booking_1 1000%Z empty_db =
    (success_body (H:=demo) (demo_booking 1900 CONFIRMED),
     {| users := []; bookings := [demo_booking 1900 CONFIRMED] |}) ∧
  VariantA.verify_payment (H:=demo) demo_env (forged_request (VObj (form 1900 [])))
    (1#2) booking_1 1000%Z empty_db = (error 400 "Invalid payment signature", empty_db) ∧
  VariantB.verify_payment (H:=demo) demo_env (forged_request (VObj (form 1900 [])))
    (1#2) booking_1 1000%Z empty_db = (error 400 "Invalid payment signature", empty_db).
Proof. repeat split; vm_compute; reflexivity. Qed.

(** ** What a run does to the store *)

Section Store.
Context `{!Platform} (env : Env) (razorpay : Gateway).

Lemma register_A_store (body : gmap string value) (salt : string)
    (fresh : ObjectId) (now : Date) (db : DB) :
  let out := VariantA.register env body salt fresh now db in
  out.2 = db ∨
  ∃ pw user,
    JS.prop body "password" = VStr pw ∧
    new_User_A (JS.prop body "name") (JS.prop body "email") (JS.prop body "phone")
      (bcrypt_hash pw salt) fresh = Some user ∧
    User_save user db = Some out.2.
Proof.
  intros out. subst out. unfold VariantA.register.
  destruct (User_findOne_email _ db) as [[?|]|]; try (left; reflexivity).
  destruct (JS.prop body "password") as [| | | |pw| |]; try (left; reflexivity).
  destruct (new_User_A _ _ _ _ fresh) as [user|] eqn:Hnew; [|left; reflexivity].
  destruct (User_save user db) as [db'|] eqn:Hsave; [|left; reflexivity].
  right. exists pw, user. repeat split; assumption.
Qed.

Lemma register_B_store (body : gmap string value) (salt : string)
    (fresh : ObjectId) (now : Date) (db : DB) :
  let out := VariantB.register env body salt fresh now db in
  out.2 = db ∨
  ∃ pw user,
    JS.prop body "password" = VStr pw ∧
    new_User_B (JS.prop body "name") (JS.prop body "email") (JS.prop body "phone")
      (bcrypt_hash pw salt) fresh = Some user ∧
    User_save user db = Some out.2.
Proof.
  intros out. subst out. unfold VariantB.register.
  destruct (User_findOne_email _ db) as [[?|]|]; try (left; reflexivity).
  destruct (JS.prop body "password") as [| | | |pw| |]; try (left; reflexivity).
  destruct (new_User_B _ _ _ _ fresh) as [user|] eqn:Hnew; [|left; reflexivity].
  destruct (User_save user db) as [db'|] eqn:Hsave; [|left; reflexivity].
  right. exists pw, user.
  destruct (VariantB.sign env _ now); repeat split; assumption.
Qed.

(** One request leaves the store as it was, or appends one user (a
    registration), or appends one booking (a payment verification). *)
Lemma handle_A_step (q : VariantA.request) (db : DB) :
  let db' := (VariantA.handle env razorpay q db).2 in
  db' = db ∨
  (∃ u, registered u db db' ∧ User_save u db = Some db') ∨
  (∃ b, inserted b db db' ∧ Booking_save b db = Some db').
Proof.
  destruct q; simpl; try (left; reflexivity).
  - destruct (verify_payment_A_outcome env body random fresh now db)
      as [(b & _ & _ & _ & Hsave & _)|[Hdb _]]; [|left; exact Hdb].
    right. right. exists b. split; [|exact Hsave].
    apply Booking_save_Some in Hsave. tauto.
  - destruct (register_A_store body salt fresh now db)
      as [Hdb|(pw & u & _ & _ & Hsave)]; [left; exact Hdb|].
    right. left. exists u. split; [|exact Hsave]. apply User_save_Some. exact Hsave.
Qed.

Lemma handle_B_step (q : VariantB.request) (db : DB) :
  let db' := (VariantB.handle env razorpay q db).2 in
  db' = db ∨
  (∃ u, registered u db db' ∧ User_save u db = Some db') ∨
  (∃ b, inserted b db db' ∧ Booking_save b db = Some db').
Proof.
  destruct q; simpl; try (left; reflexivity).
  - destruct (register_B_store body salt fresh now db)
      as [Hdb|(pw & u & _ & _ & Hsave)]; [left; exact Hdb|].
    right. left. exists u. split; [|exact Hsave]. apply User_save_Some. exact Hsave.
  - destruct (verify_payment_B_outcome env body random fresh now db)
      as [(o & b & _ & _ & _ & Hsave & _)|[Hdb _]]; [|left; exact Hdb].
    right. right. exists b. split; [|exact Hsave].
    apply Booking_save_Some in Hsave. tauto.
Qed.

Lemma grows_refl (db : DB) : grows db db.
Proof. split; reflexivity. Qed.

Lemma grows_trans (db1 db2 db3 : DB) : grows db1 db2 → grows db2 db3 → grows db1 db3.
Proof. intros [Hu Hb] [Hu' Hb']. split; etrans; eassumption. Qed.

Lemma step_grows (db db' : DB) :
  db' = db ∨ (∃ u, registered u db db' ∧ User_save u db = Some db') ∨
  (∃ b, inserted b db db' ∧ Booking_save b db = Some db') →
  grows db db'.
Proof.
  intros [->|[(u & -> & _)|(b & -> & _)]]; [apply grows_refl| |];
    split; simpl; try reflexivity; apply prefix_app_r; reflexivity.
Qed.

(** No handler of either variant deletes or changes a stored document:
    after any run the users and the bookings of before are still there, in
    their order, followed by what the run inserted. *)
Theorem run_only_appends (qsA : list VariantA.request) (qsB : list VariantB.request)
    (db : DB) :
  grows db (VariantA.run env razorpay qsA db) ∧
  grows db (VariantB.run env razorpay qsB db).
Proof.
  split.
  - unfold VariantA.run. revert db. induction qsA as [|q qs IH]; intros db; simpl.
    + apply grows_refl.
    + eapply grows_trans; [|apply IH]. apply step_grows, handle_A_step.
  - unfold VariantB.run. revert db. induction qsB as [|q qs IH]; intros db; simpl.
    + apply grows_refl.
    + eapply grows_trans; [|apply IH]. apply step_grows, handle_B_step.
Qed.

Lemma option_string_eqb_eq (a b : option string) :
  option_string_eqb a b = true ↔ a = b.
Proof.
  destruct a as [x|], b as [y|]; simpl; try (split; congruence).
  rewrite String.eqb_eq. split; congruence.
Qed.

Lemma existsb_false_Forall {A} (f : A → bool) (l : list A) :
  existsb f l = false → ∀ x, x ∈ l → f x = false.
Proof.
  intros Hex x Hin. destruct (f x) eqn:Hf; [|reflexivity].
  rewrite <- Hex. symmetry. apply existsb_exists. exists x.
  split; [apply list_elem_of_In; exact Hin | exact Hf].
Qed.

Lemma step_unique (db db' : DB) :
  db' = db ∨ (∃ u, registered u db db' ∧ User_save u db = Some db') ∨
  (∃ b, inserted b db db' ∧ Booking_save b db = Some db') →
  unique_keys db → unique_keys db'.
Proof.
  intros [->|[(u & -> & Hsave)|(b & -> & Hsave)]] (Hb & Hu & He); [repeat split; assumption| |].
  - unfold User_save in Hsave.
    destruct (existsb _ (users db)) eqn:Hex; [discriminate|].
    pose proof (existsb_false_Forall _ _ Hex) as Hall.
    unfold unique_keys. simpl. rewrite !fmap_app. simpl.
    split; [exact Hb|]. split.
    + apply NoDup_app. split; [exact Hu|]. split; [|apply NoDup_singleton].
      intros x Hx Hx'. apply list_elem_of_singleton in Hx'. subst x.
      apply list_elem_of_fmap in Hx as (u' & Heq & Hin).
      specialize (Hall u' Hin). apply orb_false_iff in Hall as [Hid _].
      apply String.eqb_neq in Hid. congruence.
    + apply NoDup_app. split; [exact He|]. split; [|apply NoDup_singleton].
      intros x Hx Hx'. apply list_elem_of_singleton in Hx'. subst x.
      apply list_elem_of_fmap in Hx as (u' & Heq & Hin).
      specialize (Hall u' Hin). apply orb_false_iff in Hall as [_ Hem].
      assert (User.email u' = User.email u) as Hsame by congruence.
      apply option_string_eqb_eq in Hsame. congruence.
  - unfold Booking_save in Hsave.
    destruct (existsb _ (bookings db)) eqn:Hex; [discriminate|].
    pose proof (existsb_false_Forall _ _ Hex) as Hall.
    unfold unique_keys. simpl. rewrite fmap_app. simpl.
    split; [|split; assumption].
    apply NoDup_app. split; [exact Hb|]. split; [|apply NoDup_singleton].
    intros x Hx Hx'. apply list_elem_of_singleton in Hx'. subst x.
    apply list_elem_of_fmap in Hx as (b' & Heq & Hin).
    specialize (Hall b' Hin). simpl in Hall.
    apply String.eqb_neq in Hall. congruence.
Qed.

(** Every run of either variant keeps the keys of the store unique: no two
    bookings with one [_id], no two users with one [_id] or one email (of the
    users without an email, at most one). *)
Theorem run_keeps_keys_unique (qsA : list VariantA.request)
    (qsB : list VariantB.request) (db : DB) :
  unique_keys db →
  unique_keys (VariantA.run env razorpay qsA db) ∧
  unique_keys (VariantB.run env razorpay qsB db).
Proof.
  intros Hun. split.
  - unfold VariantA.run. revert db Hun.
    induction qsA as [|q qs IH]; intros db Hun; simpl; [exact Hun|].
    apply IH. eapply step_unique; [apply handle_A_step | exact Hun].
  - unfold VariantB.run. revert db Hun.
    induction qsB as [|q qs IH]; intros db Hun; simpl; [exact Hun|].
    apply IH. eapply step_unique; [apply handle_B_step | exact Hun].
Qed.

Lemma new_User_A_complete (nm em ph : value) (hashed : string) (fresh : ObjectId)
    (user : User.t) :
  new_User_A nm em ph hashed fresh = Some user → complete_user user.
Proof.
  unfold new_User_A. intros Hnew.
  destruct (required_String nm) as [n|] eqn:Hn; [|discriminate].
  destruct (required_String em) as [e|] eqn:He; [|discriminate].
  destruct (required_String ph) as [p|] eqn:Hp; [|discriminate].
  destruct (required_String (VStr hashed)) as [h|] eqn:Hh; [|discriminate].
  simpl in Hnew. injection Hnew as <-.
  apply required_String_Some in Hn as (_ & Hn & _).
  apply required_String_Some in He as (_ & He & _).
  apply required_String_Some in Hp as (_ & Hp & _).
  apply required_String_Some in Hh as (_ & Hh & _).
  exists n, e, p, h. simpl. repeat split; assumption.
Qed.

(** In variant A every stored user has a name, an email, a phone and a
    password hash, none of them empty, after any run that started so: the
    [required] paths of the schema are an invariant of the collection. *)
Theorem variant_A_users_complete (qs : list VariantA.request) (db : DB) :
  Forall complete_user (users db) →
  Forall complete_user (users (VariantA.run env razorpay qs db)).
Proof.
  unfold VariantA.run. revert db. induction qs as [|q qs IH]; intros db Hall; simpl.
  - exact Hall.
  - apply IH. destruct q; simpl; try exact Hall.
    + destruct (verify_payment_A_outcome env body random fresh now db)
        as [(b & _ & _ & _ & Hsave & _)|[-> _]]; [|exact Hall].
      apply Booking_save_Some in Hsave as [-> _]. exact Hall.
    + destruct (register_A_store body salt fresh now db)
        as [->|(pw & u & _ & Hnew & Hsave)]; [exact Hall|].
      apply User_save_Some in Hsave. rewrite Hsave. simpl.
      apply Forall_app. split; [exact Hall|].
      constructor; [|constructor]. eapply new_User_A_complete. exact Hnew.
Qed.

End Store.

Lemma run_keeps_keys_unique_witness :
  unique_keys (VariantA.run (H:=demo) demo_env demo_gateway
                 [VariantA.Register demo_registration "salt" asha_id 500%Z;
                  VariantA.VerifyPayment (signed_request (VObj (form 1900 [])))
                    (1#2) booking_1 1000%Z;
                  VariantA.VerifyPayment (signed_request (VObj (form 1900 [])))
                    (1#4) booking_1 2000%Z]
                 empty_db) ∧
  bookings (VariantA.run (H:=demo) demo_env demo_gateway
              [VariantA.Register demo_registration "salt" asha_id 500%Z;
               VariantA.VerifyPayment (signed_request (VObj (form 1900 [])))
                 (1#2) booking_1 1000%Z;
               VariantA.VerifyPayment (signed_request (VObj (form 1900 [])))
                 (1#4) booking_1 2000%Z]
              empty_db) = [demo_booking 1900 CONFIRMED].
Proof.
  split; [|vm_compute; reflexivity].
  apply (run_keeps_keys_unique (H:=demo) demo_env demo_gateway
           [VariantA.Register demo_registration "salt" asha_id 500%Z;
            VariantA.VerifyPayment (signed_request (VObj (form 1900 [])))
              (1#2) booking_1 1000%Z;
            VariantA.VerifyPayment (signed_request (VObj (form 1900 [])))
              (1#4) booking_1 2000%Z]
           [] empty_db).
  repeat split; constructor.
Defined.

Lemma variant_A_users_complete_witness :
  users (VariantA.run (H:=demo) demo_env demo_gateway
           [VariantA.Register demo_registration "salt" asha_id 500%Z;
            VariantA.Register (<["name" := VStr ""]> ravi_registration) "salt"
              other_id 600%Z]
           empty_db) = [demo_user] ∧
  Forall complete_user
    (users (VariantA.run (H:=demo) demo_env demo_gateway
              [VariantA.Register demo_registration "salt" asha_id 500%Z;
               VariantA.Register (<["name" := VStr ""]> ravi_registration) "salt"
                 other_id 600%Z]
              empty_db)).
Proof.
  split; [vm_compute; reflexivity|].
  apply (variant_A_users_complete (H:=demo) demo_env demo_gateway). constructor.
Defined.

(** ** Where the paths of a stored booking come from *)

Section BookingOfForm.
Context `{!Platform} (env : Env).

(** What [new Booking] makes of the object of variant B: the six paths of
    the form, the payment and booking identifiers, and the defaults. *)
Lemma new_Booking_of_B (body o : gmap string value) (bookingId : string)
    (fresh : ObjectId) (now : Date) :
  VariantB.booking_object body bookingId = Some o →
  new_Booking o fresh now =
    (ts ← cast_tickets (form_field body "tickets");
     total ← required_Number (form_field body "totalAmount");
     nm ← required_String (form_field body "name");
     em ← required_String (form_field body "email");
     ph ← required_String (form_field body "phone");
     uid ← required_ObjectId (form_field body "userId");
     pid ← required_String (JS.prop body "razorpay_payment_id");
     bid ← required_String (VStr bookingId);
     Some {| Booking._id := fresh; Booking.tickets := ts;
             Booking.totalAmount := total; Booking.name := nm;
             Booking.email := em; Booking.phone := ph; Booking.userId := uid;
             Booking.paymentId := pid; Booking.bookingId := bid;
             Booking.status := CONFIRMED; Booking.createdAt := Some now |}).
Proof.
  unfold VariantB.booking_object, form_field.
  destruct (JS.prop body "formData"); simpl; try discriminate;
    intros [= <-]; reflexivity.
Qed.

Lemma booking_object_B_any (body o : gmap string value) (bookingId other : string) :
  VariantB.booking_object body bookingId = Some o →
  is_Some (VariantB.booking_object body other).
Proof.
  unfold VariantB.booking_object.
  destruct (JS.prop body "formData"); simpl; try discriminate; eauto.
Qed.

(** The properties of the form as variant A hands them to [new Booking],
    once the guard let the form through. *)
Lemma booking_object_A_form (body : gmap string value) (bookingId k : string) :
  VariantA.no_user_id (JS.prop body "formData") = Some false →
  k ≠ "paymentId" → k ≠ "bookingId" →
  JS.prop (VariantA.booking_object body bookingId) k = form_field body k.
Proof.
  intros Hg Hp Hb. rewrite booking_object_A_other by assumption.
  apply no_user_id_false in Hg as (o & Ho & _).
  unfold form_field. rewrite Ho. reflexivity.
Qed.

Lemma inserted_form_fields (body : gmap string value) (random : Q)
    (fresh : ObjectId) (now : Date) (db : DB) (b : Booking.t) :
  inserted b db (VariantA.verify_payment env body random fresh now db).2 ∨
  inserted b db (VariantB.verify_payment env body random fresh now db).2 →
  cast_tickets (form_field body "tickets") = Some (Booking.tickets b) ∧
  required_Number (form_field body "totalAmount") = Some (Booking.totalAmount b) ∧
  required_String (form_field body "name") = Some (Booking.name b) ∧
  required_String (form_field body "email") = Some (Booking.email b) ∧
  required_String (form_field body "phone") = Some (Booking.phone b) ∧
  required_ObjectId (form_field body "userId") = Some (Booking.userId b).
Proof.
  intros [Hins|Hins].
  - apply (verify_payment_A_inserted env) in Hins.
    destruct Hins as (Hg & _ & Hnew & _).
    apply new_Booking_Some in Hnew.
    destruct Hnew as (_ & Ht & Hto & Hn & He & Hp & Hu & _).
    rewrite booking_object_A_form in Ht, Hto, Hn, He, Hp, Hu by (auto; discriminate).
    auto 10.
  - apply (verify_payment_B_inserted env) in Hins.
    destruct Hins as (_ & (o & Ho & Hnew) & _).
    rewrite (new_Booking_of_B _ _ _ _ _ Ho) in Hnew.
    destruct (cast_tickets _) as [ts|]; [|discriminate].
    destruct (required_Number _) as [total|]; [|discriminate].
    destruct (required_String (form_field body "name")) as [nm|]; [|discriminate].
    destruct (required_String (form_field body "email")) as [em|]; [|discriminate].
    destruct (required_String (form_field body "phone")) as [ph|]; [|discriminate].
    destruct (required_ObjectId _) as [uid|]; [|discriminate].
    destruct (required_String (JS.prop body "razorpay_payment_id")); [|discriminate].
    destruct (required_String (VStr _)); [|discriminate].
    simpl in Hnew. injection Hnew as <-. simpl. auto 10.
Qed.

(** In both variants the tickets, the total, the purchaser and the owner of
    an inserted booking are the casts of the properties of [formData]: the
    server computes none of them, and a property of [formData] that fails its
    cast or its validator keeps the booking from being stored. *)
Theorem persisted_booking_form_fields (body : gmap string value) (random : Q)
    (fresh : ObjectId) (now : Date) (db : DB) (b : Booking.t) :
  inserted b db (VariantA.verify_payment env body random fresh now db).2 ∨
  inserted b db (VariantB.verify_payment env body random fresh now db).2 →
  cast_tickets (form_field body "tickets") = Some (Booking.tickets b) ∧
  required_Number (form_field body "totalAmount") = Some (Booking.totalAmount b) ∧
  required_String (form_field body "name") = Some (Booking.name b) ∧
  required_String (form_field body "email") = Some (Booking.email b) ∧
  required_String (form_field body "phone") = Some (Booking.phone b) ∧
  required_ObjectId (form_field body "userId") = Some (Booking.userId b).
Proof. apply inserted_form_fields. Qed.


Lemma cast_tickets_none (v : value) (ts : list Ticket.t) :
  v = VUndef ∨ v = VArr [] → cast_tickets v = Some ts → ts = [].
Proof. intros [->| ->] Hc; [simpl in Hc | cbv in Hc]; congruence. Qed.

(** A form without tickets (no [tickets] property, or an empty array) is
    accepted: the booking is stored with an empty ticket list, the default of
    the schema, and gives no pass. *)
Theorem booking_without_tickets_has_no_pass (body : gmap string value)
    (random : Q) (fresh : ObjectId) (now : Date) (db : DB) (b : Booking.t) :
  form_field body "tickets" = VUndef ∨ form_field body "tickets" = VArr [] →
  inserted b db (VariantA.verify_payment env body random fresh now db).2 ∨
  inserted b db (VariantB.verify_payment env body random fresh now db).2 →
  Booking.tickets b = [] ∧ passes_of b = [] ∧ passes_B (bookings db ++ [b]) = passes_B (bookings db).
Proof.
  intros Hno Hins.
  destruct (inserted_form_fields body random fresh now db b Hins) as (Ht & _).
  apply (cast_tickets_none _ _ Hno) in Ht.
  assert (Hp : passes_of b = []) by (unfold passes_of; rewrite Ht; reflexivity).
  split; [exact Ht|]. split; [exact Hp|].
  unfold passes_B. rewrite flat_map_app.
  change (flat_map passes_of [b]) with (passes_of b ++ [])%list.
  rewrite Hp. simpl. apply app_nil_r.
Qed.

End BookingOfForm.

Lemma persisted_booking_form_fields_witness :
  inserted (demo_booking 1900 PENDING) empty_db
    (VariantA.verify_payment (H:=demo) demo_env (signed_request (VObj meddling_form))
       (1#2) booking_1 1000%Z empty_db).2 ∧
  cast_tickets (H:=demo) (form_field (signed_request (VObj meddling_form)) "tickets") =
    Some demo_tickets ∧
  required_ObjectId (H:=demo) (form_field (signed_request (VObj meddling_form)) "userId") =
    Some asha_id.
Proof.
  assert (Hins : inserted (demo_booking 1900 PENDING) empty_db
            (VariantA.verify_payment (H:=demo) demo_env
               (signed_request (VObj meddling_form)) (1#2) booking_1 1000%Z empty_db).2)
    by (vm_compute; reflexivity).
  split; [exact Hins|].
  destruct (persisted_booking_form_fields (H:=demo) demo_env
              (signed_request (VObj meddling_form)) (1#2) booking_1 1000%Z empty_db
              (demo_booking 1900 PENDING) (or_introl Hins))
    as (Ht & _ & _ & _ & _ & Hu).
  split; [exact Ht | exact Hu].
Defined.


Lemma booking_without_tickets_has_no_pass_witness :
  inserted demo_booking_without_tickets empty_db
    (VariantB.verify_payment (H:=demo) demo_env
       (signed_request (VObj form_without_tickets)) (1#2) booking_1 1000%Z
       empty_db).2 ∧
  passes_of demo_booking_without_tickets = [].
Proof.
  assert (Hins : inserted demo_booking_without_tickets empty_db
            (VariantB.verify_payment (H:=demo) demo_env
               (signed_request (VObj form_without_tickets)) (1#2) booking_1
               1000%Z empty_db).2)
    by (vm_compute; reflexivity).
  split; [exact Hins|].
  destruct (booking_without_tickets_has_no_pass (H:=demo) demo_env
              (signed_request (VObj form_without_tickets)) (1#2) booking_1
              1000%Z empty_db demo_booking_without_tickets) as (_ & Hp & _).
  - left. vm_compute. reflexivity.
  - right. exact Hins.
  - exact Hp.
Defined.

(** ** A payment verified twice *)

Section Replay.
Context `{!Platform} (env : Env).

Lemma verify_payment_B_success (body o : gmap string value) (random : Q)
    (fresh : ObjectId) (now : Date) (db db' : DB) (b : Booking.t) :
  signature_valid env body = true →
  VariantB.booking_object body (new_bookingId random) = Some o →
  new_Booking o fresh now = Some b →
  Booking_save b db = Some db' →
  VariantB.verify_payment env body random fresh now db = (success_body b, db').
Proof.
  unfold signature_valid, VariantB.verify_payment. intros Hv Ho Hnew Hsave.
  destruct (generated_signature env body) as [generated|]; [|discriminate].
  apply negb_true_iff in Hv. rewrite Hv, Ho, Hnew, Hsave. reflexivity.
Qed.

Lemma Booking_save_new (b : Booking.t) (db : DB) :
  (∀ b0, b0 ∈ bookings db → Booking._id b0 ≠ Booking._id b) →
  Booking_save b db = Some {| users := users db; bookings := bookings db ++ [b] |}.
Proof.
  intros Hnew. unfold Booking_save.
  destruct (existsb _ (bookings db)) eqn:Hex; [|reflexivity].
  apply existsb_exists in Hex as (b0 & Hin & Heq).
  apply list_elem_of_In in Hin. apply String.eqb_eq in Heq.
  destruct (Hnew b0 Hin Heq).
Qed.

(** Variant B has no guard against a replay: when a request has been
    verified and its booking inserted, the same request sent again is verified
    again and, given a new [_id], inserts a second booking of the same payment,
    tickets, total and owner. *)
Theorem verify_payment_B_replay (body : gmap string value) (random random' : Q)
    (fresh fresh' : ObjectId) (now now' : Date) (db : DB) (b : Booking.t) :
  let db1 := (VariantB.verify_payment env body random fresh now db).2 in
  inserted b db db1 →
  (∀ b0, b0 ∈ bookings db1 → Booking._id b0 ≠ fresh') →
  ∃ b', inserted b' db1 (VariantB.verify_payment env body random' fresh' now' db1).2 ∧
        Booking._id b' = fresh' ∧
        Booking.paymentId b' = Booking.paymentId b ∧
        Booking.tickets b' = Booking.tickets b ∧
        Booking.totalAmount b' = Booking.totalAmount b ∧
        Booking.userId b' = Booking.userId b.
Proof.
  intros db1 Hins Hfresh.
  pose proof (verify_payment_B_inserted env _ _ _ _ _ _ Hins)
    as (Hv & (o & Ho & Hnew) & _).
  destruct (booking_object_B_any _ _ _ (new_bookingId random') Ho) as [o' Ho'].
  rewrite (new_Booking_of_B _ _ _ _ _ Ho) in Hnew.
  pose proof (new_Booking_of_B _ _ _ fresh' now' Ho') as Hnew'.
  destruct (cast_tickets _) as [ts|]; [|discriminate].
  destruct (required_Number _) as [total|]; [|discriminate].
  destruct (required_String (form_field body "name")) as [nm|]; [|discriminate].
  destruct (required_String (form_field body "email")) as [em|]; [|discriminate].
  destruct (required_String (form_field body "phone")) as [ph|]; [|discriminate].
  destruct (required_ObjectId _) as [uid|]; [|discriminate].
  destruct (required_String (JS.prop body "razorpay_payment_id")) as [pid|];
    [|discriminate].
  simpl in Hnew, Hnew'. injection Hnew as <-.
  match type of Hnew' with _ = Some ?x => set (b' := x) in * end.
  assert (Hsave : Booking_save b' db1 =
            Some {| users := users db1; bookings := bookings db1 ++ [b'] |})
    by (apply Booking_save_new; exact Hfresh).
  exists b'.
  rewrite (verify_payment_B_success _ _ _ _ _ _ _ _ Hv Ho' Hnew' Hsave).
  simpl. repeat split.
Qed.

End Replay.

Lemma verify_payment_B_replay_witness :
  inserted (demo_booking 1900 CONFIRMED) empty_db
    (VariantB.verify_payment (H:=demo) demo_env (signed_request (VObj (form 1900 [])))
       (1#2) booking_1 1000%Z empty_db).2 ∧
  bookings
    (VariantB.run (H:=demo) demo_env demo_gateway
       [VariantB.VerifyPayment (signed_request (VObj (form 1900 []))) (1#2) booking_1
          1000%Z;
        VariantB.VerifyPayment (signed_request (VObj (form 1900 []))) (1#4) booking_2
          2000%Z]
       empty_db) = [demo_booking 1900 CONFIRMED; demo_replayed_booking] ∧
  ∃ b', inserted b'
          (VariantB.verify_payment (H:=demo) demo_env
             (signed_request (VObj (form 1900 []))) (1#2) booking_1 1000%Z empty_db).2
          (VariantB.verify_payment (H:=demo) demo_env
             (signed_request (VObj (form 1900 []))) (1#4) booking_2 2000%Z
             (VariantB.verify_payment (H:=demo) demo_env
                (signed_request (VObj (form 1900 []))) (1#2) booking_1 1000%Z
                empty_db).2).2 ∧
        Booking.paymentId b' = "pay_1".
Proof.
  assert (Hins : inserted (demo_booking 1900 CONFIRMED) empty_db
            (VariantB.verify_payment (H:=demo) demo_env
               (signed_request (VObj (form 1900 []))) (1#2) booking_1 1000%Z
               empty_db).2)
    by (vm_compute; reflexivity).
  split; [exact Hins|]. split; [vm_compute; reflexivity|].
  destruct (verify_payment_B_replay (H:=demo) demo_env
              (signed_request (VObj (form 1900 []))) (1#2) (1#4) booking_1 booking_2
              1000%Z 2000%Z empty_db (demo_booking 1900 CONFIRMED) Hins)
    as (b' & Hins' & _ & Hpid & _).
  - rewrite Hins. simpl. intros b0 Hb0.
    apply list_elem_of_singleton in Hb0 as ->. discriminate.
  - exists b'. split; [exact Hins' | exact Hpid].
Defined.

(** ** Listing what was stored *)

Section Listings.
Context `{!Platform} (env : Env).

Lemma filter_snoc {A} (P : A → Prop) `{!∀ x, Decision (P x)} (l : list A) (x : A) :
  filter P (l ++ [x])%list = (filter P l ++ if decide (P x) then [x] else [])%list.
Proof.
  rewrite filter_app. reflexivity.
Qed.

(** After a payment is verified and its booking inserted, [GET
    /api/bookings/user/:email] lists the booking last under the email of the
    form and [GET /api/bookings] lists it last of all; the listing under any
    other email is what it was. *)
Theorem paid_booking_is_listed (body : gmap string value) (random : Q)
    (fresh : ObjectId) (now : Date) (db db' : DB) (b : Booking.t) :
  db' = (VariantA.verify_payment env body random fresh now db).2 ∨
  db' = (VariantB.verify_payment env body random fresh now db).2 →
  inserted b db db' →
  required_String (form_field body "email") = Some (Booking.email b) ∧
  bookings_of_email (Booking.email b) db' =
    json (VArr (Booking_toJSON <$>
                  (Booking_find_email (Booking.email b) db ++ [b])%list)) ∧
  (∀ e, e ≠ Booking.email b → bookings_of_email e db' = bookings_of_email e db) ∧
  all_bookings db' = json (VArr (Booking_toJSON <$> (bookings db ++ [b])%list)).
Proof.
  intros Hdb Hins. split; [|split; [|split]].
  - assert (Hor : inserted b db (VariantA.verify_payment env body random fresh now db).2 ∨
                  inserted b db (VariantB.verify_payment env body random fresh now db).2)
      by (destruct Hdb as [<-|<-]; auto).
    apply (inserted_form_fields env) in Hor. tauto.
  - unfold bookings_of_email, Booking_find_email. rewrite Hins. simpl.
    rewrite filter_snoc. rewrite decide_True by reflexivity. reflexivity.
  - intros e He. unfold bookings_of_email, Booking_find_email. rewrite Hins. simpl.
    rewrite filter_snoc. rewrite decide_False by congruence.
    rewrite app_nil_r. reflexivity.
  - unfold all_bookings. rewrite Hins. reflexivity.
Qed.

Lemma Booking_find_userId_inserted (uid : string) (oid : ObjectId)
    (b : Booking.t) (db db' : DB) :
  castObjectId (VStr uid) = Some oid → inserted b db db' →
  Booking_find_userId (VStr uid) db = Some (filter (λ b0, Booking.userId b0 = oid) (bookings db)) ∧
  Booking_find_userId (VStr uid) db' =
    Some (filter (λ b0, Booking.userId b0 = oid) (bookings db) ++
          if decide (Booking.userId b = oid) then [b] else [])%list.
Proof.
  intros Hc ->. unfold Booking_find_userId. rewrite Hc. simpl.
  rewrite filter_snoc. split; reflexivity.
Qed.

Lemma my_passes_A_decoded (authHeader : option string) (now : Date) (db : DB)
    (decoded : value) (uid : string) (oid : ObjectId) :
  no_bearer authHeader = false →
  VariantA.verify_token env (bearer_token authHeader) now = Some decoded →
  JS.member decoded "userId" = Some (VStr uid) →
  castObjectId (VStr uid) = Some oid →
  VariantA.my_passes env authHeader now db =
    json (VArr (map Pass_toJSON
                  (passes_B (filter (λ b, Booking.userId b = oid) (bookings db))))).
Proof.
  intros Hb Hv Hm Hc. unfold VariantA.my_passes, VariantA.bookings_of_decoded.
  rewrite Hb, Hv, Hm. unfold Booking_find_userId. rewrite Hc. simpl.
  rewrite passes_A_B. reflexivity.
Qed.

Lemma my_passes_B_decoded (authHeader : option string) (now : Date) (db : DB)
    (decoded : value) (uid : string) (oid : ObjectId) :
  no_bearer authHeader = false →
  VariantB.verify_token env (bearer_token authHeader) now = Some decoded →
  JS.member decoded "id" = Some (VStr uid) →
  castObjectId (VStr uid) = Some oid →
  VariantB.my_passes env authHeader now db =
    json (VArr (map Pass_toJSON
                  (passes_B (filter (λ b, Booking.userId b = oid) (bookings db))))).
Proof.
  intros Hb Hv Hm Hc. unfold VariantB.my_passes, VariantB.auth.
  rewrite Hb, Hv, Hm. unfold Booking_find_userId. rewrite Hc. reflexivity.
Qed.

(** The passes of a bearer of a verified token whose user id is the string
    [uid]: exactly the passes of the stored bookings whose [userId] is that
    id, so every pass answered is a line of a booking of that user, and a user
    without bookings gets the empty array with status 200. *)
Theorem my_passes_only_own (authHeader : option string) (now : Date) (db : DB)
    (decoded : value) (uid : string) (oid : ObjectId) (r : Response) :
  no_bearer authHeader = false →
  (VariantA.verify_token env (bearer_token authHeader) now = Some decoded ∧
   JS.member decoded "userId" = Some (VStr uid) ∧
   r = VariantA.my_passes env authHeader now db) ∨
  (VariantB.verify_token env (bearer_token authHeader) now = Some decoded ∧
   JS.member decoded "id" = Some (VStr uid) ∧
   r = VariantB.my_passes env authHeader now db) →
  castObjectId (VStr uid) = Some oid →
  ∃ passes,
    r = json (VArr (map Pass_toJSON passes)) ∧
    (∀ p, p ∈ passes →
       ∃ b, b ∈ bookings db ∧ Booking.userId b = oid ∧ p ∈ passes_of b ∧
            Pass._id p = Booking._id b) ∧
    (∀ b, b ∈ bookings db → Booking.userId b = oid →
          ∀ p, p ∈ passes_of b → p ∈ passes) ∧
    ((∀ b, b ∈ bookings db → Booking.userId b ≠ oid) → passes = []).
Proof.
  intros Hb Hr Hc.
  exists (passes_B (filter (λ b, Booking.userId b = oid) (bookings db))).
  split; [|split; [|split]].
  - destruct Hr as [(Hv & Hm & ->)|(Hv & Hm & ->)];
      [eapply my_passes_A_decoded | eapply my_passes_B_decoded]; eassumption.
  - intros p Hp. unfold passes_B in Hp.
    apply list_elem_of_In, in_flat_map in Hp as (b & Hin & Hp).
    apply list_elem_of_In, list_elem_of_filter in Hin as [Hu Hin].
    apply list_elem_of_In in Hp.
    exists b. repeat split; try assumption.
    unfold passes_of in Hp. apply list_elem_of_In, in_map_iff in Hp as (t & <- & _).
    reflexivity.
  - intros b Hin Hu p Hp. unfold passes_B.
    apply list_elem_of_In, in_flat_map. exists b. split.
    + apply list_elem_of_In, list_elem_of_filter. auto.
    + apply list_elem_of_In. exact Hp.
  - intros Hnone.
    assert (Hf : filter (λ b, Booking.userId b = oid) (bookings db) = []).
    { induction (bookings db) as [|b bs IH]; [reflexivity|].
      rewrite filter_cons. rewrite decide_False.
      - apply IH. intros b' Hb'. apply Hnone. right. exact Hb'.
      - apply Hnone. left. }
    rewrite Hf. reflexivity.
Qed.

(** After a booking is inserted, its passes are added at the end of what
    [GET /api/bookings/my-passes] answers its owner, and what it answers
    another user is unchanged. *)
Theorem paid_booking_in_owner_passes (authHeader : option string) (now : Date)
    (db db' : DB) (b : Booking.t) (decoded : value) (uid : string) (oid : ObjectId)
    (r r' : Response) :
  inserted b db db' →
  no_bearer authHeader = false →
  (VariantA.verify_token env (bearer_token authHeader) now = Some decoded ∧
   JS.member decoded "userId" = Some (VStr uid) ∧
   r = VariantA.my_passes env authHeader now db ∧
   r' = VariantA.my_passes env authHeader now db') ∨
  (VariantB.verify_token env (bearer_token authHeader) now = Some decoded ∧
   JS.member decoded "id" = Some (VStr uid) ∧
   r = VariantB.my_passes env authHeader now db ∧
   r' = VariantB.my_passes env authHeader now db') →
  castObjectId (VStr uid) = Some oid →
  ∃ before,
    r = json (VArr (map Pass_toJSON before)) ∧
    (Booking.userId b = oid →
       r' = json (VArr (map Pass_toJSON (before ++ passes_of b)%list))) ∧
    (Booking.userId b ≠ oid → r' = r).
Proof.
  intros Hins Hb Hr Hc.
  exists (passes_B (filter (λ b0, Booking.userId b0 = oid) (bookings db))).
  assert (Hboth :
    r = json (VArr (map Pass_toJSON
          (passes_B (filter (λ b0, Booking.userId b0 = oid) (bookings db))))) ∧
    r' = json (VArr (map Pass_toJSON
          (passes_B (filter (λ b0, Booking.userId b0 = oid) (bookings db'))))))
    by (destruct Hr as [(Hv & Hm & -> & ->)|(Hv & Hm & -> & ->)]; split;
        first [eapply my_passes_A_decoded | eapply my_passes_B_decoded]; eassumption).
  destruct Hboth as [-> ->]. split; [reflexivity|].
  rewrite Hins. simpl. rewrite filter_snoc. split; intros Hu.
  - rewrite decide_True by exact Hu. rewrite passes_B_block. simpl.
    rewrite app_nil_r. reflexivity.
  - rewrite decide_False by exact Hu. rewrite app_nil_r. reflexivity.
Qed.

End Listings.

Lemma paid_booking_is_listed_witness :
  inserted (demo_booking 1900 CONFIRMED) demo_db_registered
    (VariantA.verify_payment (H:=demo) demo_env (signed_request (VObj (form 1900 [])))
       (1#2) booking_1 1000%Z demo_db_registered).2 ∧
  bookings_of_email (H:=demo) "asha@example.com" (demo_db 1900) =
    json (VArr [Booking_toJSON (H:=demo) (demo_booking 1900 CONFIRMED)]) ∧
  bookings_of_email (H:=demo) "ravi@example.com" (demo_db 1900) = json (VArr []).
Proof.
  assert (Hdb : demo_db 1900 =
            (VariantA.verify_payment (H:=demo) demo_env
               (signed_request (VObj (form 1900 []))) (1#2) booking_1 1000%Z
               demo_db_registered).2) by (vm_compute; reflexivity).
  assert (Hins : inserted (demo_booking 1900 CONFIRMED) demo_db_registered (demo_db 1900))
    by reflexivity.
  destruct (paid_booking_is_listed (H:=demo) demo_env
              (signed_request (VObj (form 1900 []))) (1#2) booking_1 1000%Z
              demo_db_registered (demo_db 1900) (demo_booking 1900 CONFIRMED)
              (or_introl Hdb) Hins) as (_ & Hlist & Hother & _).
  split; [rewrite <- Hdb; exact Hins|]. split.
  - exact Hlist.
  - rewrite (Hother "ravi@example.com") by discriminate. reflexivity.
Defined.

Lemma my_passes_only_own_witness :
  ∃ passes,
    VariantA.my_passes (H:=demo) demo_env (Some asha_bearer) 2000%Z (demo_db 1900) =
      json (VArr (map (Pass_toJSON (H:=demo)) passes)) ∧
    ∀ p, p ∈ passes →
      ∃ b, b ∈ bookings (demo_db 1900) ∧ Booking.userId b = asha_id ∧
           p ∈ passes_of b ∧ Pass._id p = Booking._id b.
Proof.
  destruct (my_passes_only_own (H:=demo) demo_env (Some asha_bearer) 2000%Z
              (demo_db 1900) asha_decoded asha_id asha_id
              (VariantA.my_passes (H:=demo) demo_env (Some asha_bearer) 2000%Z
                 (demo_db 1900)))
    as (passes & Hr & Hown & _).
  - reflexivity.
  - left. repeat split.
  - reflexivity.
  - exists passes. split; [exact Hr | exact Hown].
Defined.

Lemma paid_booking_in_owner_passes_witness :
  VariantB.my_passes (H:=demo) demo_env (Some asha_bearer) 2000%Z demo_db_registered =
    json (VArr []) ∧
  VariantB.my_passes (H:=demo) demo_env (Some asha_bearer) 2000%Z (demo_db 1900) =
    json (VArr (map (Pass_toJSON (H:=demo)) (passes_of (demo_booking 1900 CONFIRMED)))).
Proof.
  destruct (paid_booking_in_owner_passes (H:=demo) demo_env (Some asha_bearer) 2000%Z
              demo_db_registered (demo_db 1900) (demo_booking 1900 CONFIRMED)
              asha_decoded asha_id asha_id
              (VariantB.my_passes (H:=demo) demo_env (Some asha_bearer) 2000%Z
                 demo_db_registered)
              (VariantB.my_passes (H:=demo) demo_env (Some asha_bearer) 2000%Z
                 (demo_db 1900)))
    as (before & Hr & Hown & _).
  - reflexivity.
  - reflexivity.
  - right. repeat split.
  - reflexivity.
  - split; [vm_compute; reflexivity|].
    rewrite (Hown eq_refl).
    assert (Hb : before = []).
    { assert (Hj : json (VArr (map (Pass_toJSON (H:=demo)) before)) = json (VArr []))
        by (rewrite <- Hr; vm_compute; reflexivity).
      injection Hj as Hj. destruct before; [reflexivity | discriminate]. }
    rewrite Hb. reflexivity.
Defined.

(** ** More on registration and login *)

Section Accounts.
Context `{!Platform} (env : Env).

Lemma new_User_B_strings (nm e ph hashed : string) (fresh : ObjectId) :
  new_User_B (VStr nm) (VStr e) (VStr ph) hashed fresh =
    Some {| User._id := fresh; User.name := Some nm; User.email := Some e;
            User.phone := Some ph; User.password := Some hashed |}.
Proof. reflexivity. Qed.

Lemma findOne_last (e : string) (u : User.t) (db : DB) :
  (∀ u', u' ∈ users db → User.email u' ≠ Some e) →
  User.email u = Some e →
  User_findOne_email (VStr e) {| users := users db ++ [u]; bookings := bookings db |} =
    Some (Some u).
Proof.
  intros Hno He. simpl. f_equal. rewrite find_app_None.
  - simpl. rewrite He. simpl. rewrite String.eqb_refl. reflexivity.
  - destruct (find _ (users db)) as [u'|] eqn:Hf; [|reflexivity].
    apply find_some in Hf as [Hin Hu]. apply option_string_eqb_Some in Hu.
    apply list_elem_of_In in Hin. destruct (Hno u' Hin Hu).
Qed.

(** In variant B, when [JWT_SECRET] is not set (or empty), a registration
    with an unused email stores the user and then fails to sign the token:
    the response is 500 "Server error" although the user was inserted, and
    the same registration sent again is refused with 400 "User already
    exists". *)
Theorem register_B_without_secret_stores_user (body : gmap string value)
    (nm e ph pw salt : string) (fresh : ObjectId) (now : Date) (db : DB) :
  JWT_SECRET env = None ∨ JWT_SECRET env = Some "" →
  JS.prop body "name" = VStr nm → JS.prop body "email" = VStr e →
  JS.prop body "phone" = VStr ph → JS.prop body "password" = VStr pw →
  (∀ u, u ∈ users db → User.email u ≠ Some e) →
  (∀ u, u ∈ users db → User._id u ≠ fresh) →
  let user := {| User._id := fresh; User.name := Some nm; User.email := Some e;
                 User.phone := Some ph;
                 User.password := Some (bcrypt_hash pw salt) |} in
  let db' := {| users := users db ++ [user]; bookings := bookings db |} in
  VariantB.register env body salt fresh now db = (error 500 "Server error", db') ∧
  ∀ salt' fresh' now',
    VariantB.register env body salt' fresh' now' db' =
      (error 400 "User already exists", db').
Proof.
  intros Hsecret Hnm He Hph Hpw Hno Hid user db'.
  assert (Hsave : User_save user db = Some db')
    by (apply User_save_fresh; subst user; simpl; auto).
  assert (Hsign : ∀ payload, VariantB.sign env payload now = None).
  { intros payload. unfold VariantB.sign. destruct Hsecret as [-> | ->]; reflexivity. }
  split.
  - unfold VariantB.register. rewrite Hnm, He, Hph, Hpw.
    rewrite (findOne_unknown _ _ Hno), new_User_B_strings.
    fold user. rewrite Hsave, Hsign. reflexivity.
  - intros salt' fresh' now'. unfold VariantB.register. rewrite He.
    subst db'. rewrite (findOne_last e user db Hno eq_refl). reflexivity.
Qed.

(** In variant B with [JWT_SECRET] set, a registration with string fields
    and an unused email answers 201 with a token and the stored document, and
    a login after it with the same email and password answers 200 with a token
    and the same document. *)
Theorem register_then_login_B (body again : gmap string value)
    (nm e ph pw salt secret : string) (fresh : ObjectId) (now later : Date) (db : DB) :
  JWT_SECRET env = Some secret → secret ≠ "" →
  JS.prop body "name" = VStr nm → JS.prop body "email" = VStr e →
  JS.prop body "phone" = VStr ph → JS.prop body "password" = VStr pw →
  (∀ u, u ∈ users db → User.email u ≠ Some e) →
  (∀ u, u ∈ users db → User._id u ≠ fresh) →
  bcrypt_compare pw (bcrypt_hash pw salt) = true →
  JS.prop again "email" = VStr e → JS.prop again "password" = VStr pw →
  let user := {| User._id := fresh; User.name := Some nm; User.email := Some e;
                 User.phone := Some ph;
                 User.password := Some (bcrypt_hash pw salt) |} in
  let db' := {| users := users db ++ [user]; bookings := bookings db |} in
  let payload := json_object [("id", VStr fresh)] in
  VariantB.register env body salt fresh now db =
    ({| res_status := 201;
        res_body := json_object [("token", VStr (jwt_sign payload secret "1h" now));
                                 ("user", User_toJSON user)] |}, db') ∧
  VariantB.login env again later db' =
    json (json_object [("token", VStr (jwt_sign payload secret "1h" later));
                       ("user", User_toJSON user)]).
Proof.
  intros Hsecret Hne Hnm He Hph Hpw Hno Hid Hcmp He' Hpw' user db' payload.
  assert (Hsave : User_save user db = Some db')
    by (apply User_save_fresh; subst user; simpl; auto).
  assert (Hsign : ∀ p t, VariantB.sign env p t = Some (jwt_sign p secret "1h" t)).
  { intros p t. unfold VariantB.sign. rewrite Hsecret.
    apply String.eqb_neq in Hne. rewrite Hne. reflexivity. }
  split.
  - unfold VariantB.register. rewrite Hnm, He, Hph, Hpw.
    rewrite (findOne_unknown _ _ Hno), new_User_B_strings.
    fold user. rewrite Hsave, Hsign. reflexivity.
  - unfold VariantB.login. rewrite He', Hpw'. subst db'.
    rewrite (findOne_last e user db Hno eq_refl). simpl.
    rewrite Hcmp, Hsign. reflexivity.
Qed.

(** A login is answered 200 only when a user was found for the email of
    the request and [bcrypt.compare] accepted the password of the request
    against the hash stored for that user. *)
Theorem login_requires_matching_password (body : gmap string value) (now : Date)
    (db : DB) (r : Response) :
  r = VariantA.login env body now db ∨ r = VariantB.login env body now db →
  res_status r = 200 →
  ∃ user pw hash,
    User_findOne_email (JS.prop body "email") db = Some (Some user) ∧
    JS.prop body "password" = VStr pw ∧
    User.password user = Some hash ∧
    bcrypt_compare pw hash = true.
Proof.
  intros [-> | ->]; unfold VariantA.login, VariantB.login;
    destruct (User_findOne_email _ db) as [[user|]|] eqn:Hfind; try discriminate;
    destruct (JS.prop body "password") as [| | | |pw| |] eqn:Hpw; try discriminate;
    destruct (User.password user) as [hash|] eqn:Hhash; try discriminate;
    destruct (bcrypt_compare pw hash) eqn:Hcmp; try discriminate;
    intros _; exists user, pw, hash; repeat split; assumption.
Qed.

(** A successful login in variant B answers with the stored document, so
    the [user] object of the response holds the password hash, as the one of
    a registration does. *)
Theorem login_B_returns_password_hash (body : gmap string value) (now : Date)
    (db : DB) :
  res_status (VariantB.login env body now db) = 200 →
  ∃ user hash,
    User_findOne_email (JS.prop body "email") db = Some (Some user) ∧
    User.password user = Some hash ∧
    field (user_of_response (VariantB.login env body now db)) "password" =
      Some (VStr hash).
Proof.
  unfold VariantB.login.
  destruct (User_findOne_email _ db) as [[user|]|] eqn:Hfind; try discriminate.
  destruct (JS.prop body "password") as [| | | |pw| |]; try discriminate.
  destruct (User.password user) as [hash|] eqn:Hhash; try discriminate.
  destruct (bcrypt_compare pw hash); try discriminate.
  destruct (VariantB.sign env _ now) as [token|]; try discriminate.
  intros _. exists user, hash. split; [reflexivity|]. split; [exact Hhash|].
  change (negb true) with false. cbv beta iota.
  destruct (user_of_response_json token (User_toJSON user) eq_refl) as [-> _].
  apply User_toJSON_password. exact Hhash.
Qed.

(** A successful login in variant A answers with the [id], [name] and
    [phone] of the stored user and the email of the request: the [user] object
    has no [password] property. *)
Theorem login_A_omits_password (body : gmap string value) (now : Date) (db : DB) :
  res_status (VariantA.login env body now db) = 200 →
  ∃ user,
    User_findOne_email (JS.prop body "email") db = Some (Some user) ∧
    field (user_of_response (VariantA.login env body now db)) "id" =
      Some (VStr (User._id user)) ∧
    field (user_of_response (VariantA.login env body now db)) "password" = None ∧
    field (res_body (VariantA.login env body now db)) "password" = None.
Proof.
  unfold VariantA.login.
  destruct (User_findOne_email _ db) as [[user|]|]; try discriminate.
  destruct (JS.prop body "password") as [| | | |pw| |]; try discriminate.
  destruct (User.password user) as [hash|]; try discriminate.
  destruct (bcrypt_compare pw hash); try discriminate.
  intros _. exists user. split; [reflexivity|].
  destruct (User.name user), (JS.prop body "email"), (User.phone user);
    repeat split; reflexivity.
Qed.

End Accounts.

Lemma register_B_without_secret_stores_user_witness :
  VariantB.register (H:=demo) demo_env_no_jwt demo_registration "salt" asha_id 1000%Z
    empty_db = (error 500 "Server error", demo_db_registered) ∧
  VariantB.register (H:=demo) demo_env_no_jwt demo_registration "pepper" other_id 2000%Z
    demo_db_registered = (error 400 "User already exists", demo_db_registered).
Proof.
  destruct (register_B_without_secret_stores_user (H:=demo) demo_env_no_jwt
              demo_registration "Asha" "asha@example.com" "9876543210" "hunter2"
              "salt" asha_id 1000%Z empty_db) as [Hreg Hagain];
    try reflexivity.
  - left. reflexivity.
  - intros u Hin. inversion Hin.
  - intros u Hin. inversion Hin.
  - split; [exact Hreg | exact (Hagain "pepper" other_id 2000%Z)].
Defined.

Lemma register_then_login_B_witness :
  (VariantB.register (H:=demo) demo_env demo_registration "salt" asha_id 1000%Z
     empty_db).2 = demo_db_registered ∧
  res_status (VariantB.register (H:=demo) demo_env demo_registration "salt" asha_id
                1000%Z empty_db).1 = 201 ∧
  res_status (VariantB.login (H:=demo) demo_env
                (login_request "asha@example.com" "hunter2") 2000%Z
                demo_db_registered) = 200.
Proof.
  destruct (register_then_login_B (H:=demo) demo_env demo_registration
              (login_request "asha@example.com" "hunter2")
              "Asha" "asha@example.com" "9876543210" "hunter2" "salt" "jwt_secret"
              asha_id 1000%Z 2000%Z empty_db) as [Hreg Hlogin];
    try reflexivity; try discriminate.
  - intros u Hin. inversion Hin.
  - intros u Hin. inversion Hin.
  - rewrite Hreg. split; [reflexivity|]. split; [reflexivity|].
    change demo_db_registered
      with {| users := users empty_db ++
                [{| User._id := asha_id; User.name := Some "Asha";
                    User.email := Some "asha@example.com";
                    User.phone := Some "9876543210";
                    User.password :=
                      Some (bcrypt_hash (Platform:=demo) "hunter2" "salt") |}];
              bookings := bookings empty_db |}.
    rewrite Hlogin. reflexivity.
Defined.

Lemma login_requires_matching_password_witness :
  res_status (VariantA.login (H:=demo) demo_env
                (login_request "asha@example.com" "hunter2") 2000%Z
                demo_db_registered) = 200 ∧
  ∃ user pw hash,
    User_findOne_email (H:=demo) (VStr "asha@example.com") demo_db_registered =
      Some (Some user) ∧
    User.password user = Some hash ∧
    bcrypt_compare (Platform:=demo) pw hash = true.
Proof.
  assert (Hok : res_status (VariantA.login (H:=demo) demo_env
                              (login_request "asha@example.com" "hunter2") 2000%Z
                              demo_db_registered) = 200) by (vm_compute; reflexivity).
  split; [exact Hok|].
  destruct (login_requires_matching_password (H:=demo) demo_env
              (login_request "asha@example.com" "hunter2") 2000%Z demo_db_registered
              _ (or_introl eq_refl) Hok) as (user & pw & hash & Hf & _ & Hh & Hc).
  exists user, pw, hash. split; [exact Hf|]. split; [exact Hh | exact Hc].
Defined.

Lemma login_B_returns_password_hash_witness :
  res_status (VariantB.login (H:=demo) demo_env
                (login_request "asha@example.com" "hunter2") 2000%Z
                demo_db_registered) = 200 ∧
  ∃ hash,
    field (user_of_response
             (VariantB.login (H:=demo) demo_env
                (login_request "asha@example.com" "hunter2") 2000%Z
                demo_db_registered)) "password" = Some (VStr hash).
Proof.
  assert (Hok : res_status (VariantB.login (H:=demo) demo_env
                              (login_request "asha@example.com" "hunter2") 2000%Z
                              demo_db_registered) = 200) by (vm_compute; reflexivity).
  split; [exact Hok|].
  destruct (login_B_returns_password_hash (H:=demo) demo_env
              (login_request "asha@example.com" "hunter2") 2000%Z demo_db_registered
              Hok) as (user & hash & _ & _ & Hfield).
  exists hash. exact Hfield.
Defined.

Lemma login_A_omits_password_witness :
  res_status (VariantA.login (H:=demo) demo_env
                (login_request "asha@example.com" "hunter2") 2000%Z
                demo_db_registered) = 200 ∧
  field (user_of_response
           (VariantA.login (H:=demo) demo_env
              (login_request "asha@example.com" "hunter2") 2000%Z
              demo_db_registered)) "password" = None.
Proof.
  assert (Hok : res_status (VariantA.login (H:=demo) demo_env
                              (login_request "asha@example.com" "hunter2") 2000%Z
                              demo_db_registered) = 200) by (vm_compute; reflexivity).
  split; [exact Hok|].
  destruct (login_A_omits_password (H:=demo) demo_env
              (login_request "asha@example.com" "hunter2") 2000%Z demo_db_registered
              Hok) as (user & _ & _ & Hfield & _).
  exact Hfield.
Defined.

(** ** The bearer token and the order amount *)

Section Requests.
Context `{!Platform} (env : Env).

Lemma split_no_space (t : string) :
  no_space t = true → JS.split " " t = [t].
Proof.
  induction t as [|a t IH]; simpl; [reflexivity|].
  intros Hn. apply andb_true_iff in Hn as [Ha Ht]. apply negb_true_iff in Ha.
  rewrite Ha, (IH Ht). reflexivity.
Qed.

Lemma split_at_space (t rest : string) :
  no_space t = true → JS.split " " (t +:+ " " +:+ rest) = t :: JS.split " " rest.
Proof.
  induction t as [|a t IH]; intros Hn.
  - reflexivity.
  - simpl in Hn. apply andb_true_iff in Hn as [Ha Ht]. apply negb_true_iff in Ha.
    change (String a t +:+ " " +:+ rest) with (String a (t +:+ " " +:+ rest)).
    simpl. rewrite Ha, (IH Ht). reflexivity.
Qed.

(** The token the guard hands to [jwt.verify] is the text between
    "Bearer " and the next space: the whole rest of the header when it has
    no space, and only its first word otherwise; a header that is just
    "Bearer " gives the empty token. *)
Theorem bearer_token_first_word (t : string) :
  no_space t = true →
  no_bearer (Some ("Bearer " +:+ t)) = false ∧
  bearer_token (Some ("Bearer " +:+ t)) = Some t ∧
  ∀ rest, no_bearer (Some ("Bearer " +:+ t +:+ " " +:+ rest)) = false ∧
          bearer_token (Some ("Bearer " +:+ t +:+ " " +:+ rest)) = Some t.
Proof.
  intros Hn. split; [|split].
  - apply no_bearer_spec. exists t. reflexivity.
  - unfold bearer_token.
    change ("Bearer " +:+ t) with ("Bearer" +:+ " " +:+ t).
    rewrite (split_at_space "Bearer" t eq_refl), (split_no_space t Hn). reflexivity.
  - intros rest. split.
    + apply no_bearer_spec. exists (t +:+ " " +:+ rest). reflexivity.
    + unfold bearer_token.
      change ("Bearer " +:+ t +:+ " " +:+ rest)
        with ("Bearer" +:+ " " +:+ t +:+ " " +:+ rest).
      rewrite (split_at_space "Bearer" (t +:+ " " +:+ rest) eq_refl).
      rewrite (split_at_space t rest Hn). reflexivity.
Qed.


End Requests.

Lemma bearer_token_first_word_witness :
  bearer_token (Some "Bearer abc.def.ghi") = Some "abc.def.ghi" ∧
  bearer_token (Some "Bearer abc.def.ghi trailing words") = Some "abc.def.ghi".
Proof.
  destruct (bearer_token_first_word "abc.def.ghi" eq_refl) as (_ & Ht & Hrest).
  split; [exact Ht|]. exact (proj2 (Hrest "trailing words")).
Defined.

